(** * PyPopStar: selection of stellar atmosphere models

    A shallow embedding of [popstar/atmospheres.py]: the single-grid
    fetchers [get_*_atmosphere], the temperature-band resolver
    [get_merged_atmosphere], and three of the scripts that build the grids,
    [rebin_phoenixV16], [cdbs_PHOENIXv16] and [download_CMFGEN_atmospheres].

    Numbers.  The Python code handles temperatures, gravities and
    metallicities as machine numbers (int or binary64).  They are embedded as
    exact rationals [Q]; all node values of the grids (multiples of 0.5 and
    of 50) are exactly representable, and the arithmetic the fetchers do on
    them (a subtraction, an absolute value, comparisons) is read as exact.
    This reading is that of the program for requests that are numbers of
    magnitude up to 10^15: there the binary64 distance of a request to a
    node is exact, or rounds apart from the distances to the other nodes.
    Far beyond (from about 10^16 for a gravity, 10^18 for a temperature)
    the rounded distances to several nodes coincide and the code takes the
    first of them, and a NaN makes the index array empty.  The module
    [Binary64] runs the Castelli-Kurucz fetcher on binary64 numbers to show
    this; statements that need it carry a bound on the request.

    Effects.  A fetcher prints diagnostics and calls the external catalog
    interpolator [pysynphot.Icat].  Both are recorded, in order, in a trace
    of events, and a Python exception is a result of its own, so that "the
    interpolator is never called" and "returns None rather than raising" are
    statements about the value of a function.  The interpolator is taken to
    answer every call with a spectrum: what a fetcher returns is stated for
    a call that is answered, and nothing is said of an interpolator that
    raises. *)

From Stdlib Require Import Floats.
From Stdlib Require Import List String Ascii ZArith QArith Qabs Qround Lia Lqa Bool.
From Stdlib Require Import Permutation.
Import ListNotations.

Open Scope Q_scope.

(** ** Rational comparisons as the code writes them *)

Definition Qltb (x y : Q) : bool := negb (Qle_bool y x).
Definition Qgtb (x y : Q) : bool := Qltb y x.
Definition Qneb (x y : Q) : bool := negb (Qeq_bool x y).

(** ** Spectra, events and the effect monad *)

Record Spectrum : Type := mkSpectrum {
  wave : list Q;
  flux : list Q
}.

Inductive PyExn : Type :=
| ValueError
| IndexError.

Inductive Event : Type :=
| Print (line : string)
| PrintFmt (fmt : string) (arg : Q)
| IcatCall (grid : string) (temperature metallicity gravity : Q).

Inductive res (A : Type) : Type :=
| Ok (a : A)
| Raise (e : PyExn).
Arguments Ok {A} a.
Arguments Raise {A} e.

Definition trace : Type := list Event.

Definition M (A : Type) : Type := (res A * trace)%type.

Definition ret {A} (a : A) : M A := (Ok a, []).

Definition raise {A} (e : PyExn) : M A := (Raise e, []).

Definition bind {A B} (m : M A) (f : A -> M B) : M B :=
  match m with
  | (Ok a, tr) => let '(r, tr') := f a in (r, tr ++ tr')
  | (Raise e, tr) => (Raise e, tr)
  end.

Declare Scope py_scope.
Delimit Scope py_scope with py.
Notation "x <- m ;; k" := (bind m (fun x => k))
  (at level 61, m at next level, right associativity) : py_scope.
Notation "m ;; k" := (bind m (fun _ => k))
  (at level 61, right associativity) : py_scope.
Open Scope py_scope.

Definition print (line : string) : M unit := (Ok tt, [Print line]).

Definition printf (fmt : string) (arg : Q) : M unit := (Ok tt, [PrintFmt fmt arg]).

(** ** The numpy and builtin operations the fetchers use *)

Module np.

(** [np.arange(start, stop, step)]: ceil((stop - start) / step) values
    start + i * step. *)
Definition arange (start stop step : Q) : list Q :=
  map (fun i => Qred (start + inject_Z (Z.of_nat i) * step))
      (seq 0 (Z.to_nat (Qceiling ((stop - start) / step)))).

Definition append (a b : list Q) : list Q := a ++ b.

Definition array (l : list Q) : list Q := l.

(** [arr - x], elementwise. *)
Definition sub (arr : list Q) (x : Q) : list Q := map (fun a => a - x) arr.

(** [abs(arr)], elementwise. *)
Definition abs (arr : list Q) : list Q := map Qabs arr.

(** [arr == x] and [arr != x], elementwise. *)
Definition eq (arr : list Q) (x : Q) : list bool := map (fun a => Qeq_bool a x) arr.
Definition ne (arr : list Q) (x : Q) : list bool := map (fun a => Qneb a x) arr.

Fixpoint where_from (i : nat) (mask : list bool) : list nat :=
  match mask with
  | [] => []
  | b :: mask' => if b then i :: where_from (S i) mask' else where_from (S i) mask'
  end.

(** [np.where(mask)[0]]: the indices at which the mask holds, ascending. *)
Definition where_ (mask : list bool) : list nat := where_from 0 mask.

End np.

(** The builtin [min] over a sequence: the first of the smallest items;
    [ValueError] on an empty one. *)
Fixpoint min_from (cur : Q) (l : list Q) : Q :=
  match l with
  | [] => cur
  | x :: l' => min_from (if Qltb x cur then x else cur) l'
  end.

Definition min (l : list Q) : M Q :=
  match l with
  | [] => raise ValueError
  | x :: l' => ret (min_from x l')
  end.

(** [l[i]]: [IndexError] out of range. *)
Definition getitem {A} (l : list A) (i : nat) : M A :=
  match nth_error l i with
  | Some a => ret a
  | None => raise IndexError
  end.

(** [arr[idx]] with an index array: the selected items, in the order of
    the indices. *)
Fixpoint take {A} (l : list A) (idx : list nat) : M (list A) :=
  match idx with
  | [] => ret []
  | i :: idx' => a <- getitem l i ;; r <- take l idx' ;; ret (a :: r)
  end.

(** ** The fetchers *)

Section Atmospheres.

(** The external catalog interpolator, [pysynphot.Icat(grid, t, m, g)]. *)
Variable Icat : string -> Q -> Q -> Q -> Spectrum.

Definition icat (grid : string) (temperature metallicity gravity : Q) : M Spectrum :=
  (Ok (Icat grid temperature metallicity gravity),
   [IcatCall grid temperature metallicity gravity]).

(** The error check every fetcher ends with:
    [idx = np.where(sp.flux != 0)[0]; if len(idx) == 0: print ...]. *)
Definition error_checking (sp : Spectrum) (msg : string)
           (temperature metallicity gravity : Q) : M unit :=
  let idx := np.where_ (np.ne (flux sp) 0) in
  if Nat.eqb (List.length idx) 0%nat then
    print msg ;;
    printf "  temperature = %d" temperature ;;
    printf "  metallicity = %.1f" metallicity ;;
    printf "  log gravity = %.1f" gravity
  else ret tt.

Definition get_kurucz_atmosphere (metallicity temperature gravity : Q)
  : M (option Spectrum) :=
  sp <- icat "k93models" temperature metallicity gravity ;;
  error_checking sp "Could not find Kurucz 1993 atmosphere model for"
                 temperature metallicity gravity ;;
  ret (Some sp).

Definition get_castelli_atmosphere (metallicity temperature gravity : Q)
  : M (option Spectrum) :=
  if Qltb temperature 3000 then
    print "No ck04 model below 3000 K" ;;
    ret None
  else
    let t1 := np.arange 3000 (13000 + 1) 250 in
    let t2 := np.arange 13000 (50000 + 1) 1000 in
    let temp_arr := np.append t1 t2 in
    let grav_arr := np.arange 2.0 (5.0 + 0.1) 0.5 in
    tmin <- min (np.abs (np.sub temp_arr temperature)) ;;
    let temp_ind := np.where_ (np.eq (np.abs (np.sub temp_arr temperature)) tmin) in
    gmin <- min (np.abs (np.sub grav_arr gravity)) ;;
    let grav_ind := np.where_ (np.eq (np.abs (np.sub grav_arr gravity)) gmin) in
    ti <- getitem temp_ind 0%nat ;;
    temperature <- getitem temp_arr ti ;;
    gi <- getitem grav_ind 0%nat ;;
    gravity <- getitem grav_arr gi ;;
    let gravity := if Qltb gravity 2.5 then 2.5 else gravity in
    sp <- icat "ck04models" temperature metallicity gravity ;;
    error_checking sp "Could not find Castelli and Kurucz 2004 atmosphere model for"
                   temperature metallicity gravity ;;
    ret (Some sp).

Definition get_nextgen_atmosphere (metallicity temperature gravity : Q)
  : M (option Spectrum) :=
  sp <- icat "nextgen" temperature metallicity gravity ;;
  error_checking sp "Could not find NextGen atmosphere model for"
                 temperature metallicity gravity ;;
  ret (Some sp).

Definition get_amesdusty_atmosphere (metallicity temperature gravity : Q)
  : M (option Spectrum) :=
  sp <- icat "AMESdusty" temperature metallicity gravity ;;
  error_checking sp "Could not find AMESdusty Allard+ 2000 atmosphere model for"
                 temperature metallicity gravity ;;
  ret (Some sp).

Definition get_phoenix_atmosphere (metallicity temperature gravity : Q)
  : M (option Spectrum) :=
  sp <- icat "phoenix" temperature metallicity gravity ;;
  error_checking sp "Could not find PHOENIX BT-Settl (Allard+ 2011 atmosphere model for"
                 temperature metallicity gravity ;;
  ret (Some sp).

Definition get_cmfgenRot_atmosphere (metallicity temperature gravity : Q)
  : M (option Spectrum) :=
  sp <- icat "cmfgenF15_rot" temperature metallicity gravity ;;
  error_checking sp "Could not find CMFGEN rotating atmosphere model (Fierro+15) for"
                 temperature metallicity gravity ;;
  ret (Some sp).

Definition get_cmfgenNoRot_atmosphere (metallicity temperature gravity : Q)
  : M (option Spectrum) :=
  sp <- icat "cmfgenF15_noRot" temperature metallicity gravity ;;
  error_checking sp "Could not find CMFGEN non-rotating atmosphere model (Fierro+15) for"
                 temperature metallicity gravity ;;
  ret (Some sp).

Definition get_phoenixv16_atmosphere (metallicity temperature gravity : Q)
           (rebin : bool) : M (option Spectrum) :=
  if Qltb temperature 2300 || Qgtb temperature 12000 || Qltb gravity 2.0 then
    print "No phoenixV16 model below 2300 K or above 12000 K, or grav < 2.0" ;;
    ret None
  else
    let t1 := np.arange 2300 (7000 + 1) 100 in
    let t2 := np.arange 7000 (12000 + 1) 200 in
    let temp_arr := np.append t1 t2 in
    let grav_arr := np.arange 2.0 (6.0 + 0.1) 0.5 in
    tmin <- min (np.abs (np.sub temp_arr temperature)) ;;
    let temp_ind := np.where_ (np.eq (np.abs (np.sub temp_arr temperature)) tmin) in
    gmin <- min (np.abs (np.sub grav_arr gravity)) ;;
    let grav_ind := np.where_ (np.eq (np.abs (np.sub grav_arr gravity)) gmin) in
    tsel <- take temp_arr temp_ind ;;
    t0 <- getitem tsel 0%nat ;;
    gi <- getitem grav_ind 0%nat ;;
    g0 <- getitem grav_arr gi ;;
    if Qgtb (Qabs (temperature - t0)) 100 || Qgtb (Qabs (gravity - g0)) 0.5 then
      print "BAD TEMP/GRAV MATCH" ;;
      ret None
    else
      ti <- getitem temp_ind 0%nat ;;
      temperature <- getitem temp_arr ti ;;
      gi <- getitem grav_ind 0%nat ;;
      gravity <- getitem grav_arr gi ;;
      sp <- (if Bool.eqb rebin true
             then icat "phoenix_v16_rebin" temperature metallicity gravity
             else icat "phoenix_v16" temperature metallicity gravity) ;;
      error_checking sp "Could not find PHOENIXv16 (Husser+13) atmosphere model for"
                     temperature metallicity gravity ;;
      ret (Some sp).

Definition get_atlas_phoenix_atmosphere (metallicity temperature gravity : Q)
  : M (option Spectrum) :=
  if Qltb temperature 5000 || Qgtb temperature 5500 then
    print "No ATLAS-PHOENIX merge model outside 5000 - 5500" ;;
    ret None
  else
    let temp_arr := np.array [5250] in
    let grav_arr := np.arange 0.0 (5.0 + 0.1) 0.5 in
    tmin <- min (np.abs (np.sub temp_arr temperature)) ;;
    let temp_ind := np.where_ (np.eq (np.abs (np.sub temp_arr temperature)) tmin) in
    gmin <- min (np.abs (np.sub grav_arr gravity)) ;;
    let grav_ind := np.where_ (np.eq (np.abs (np.sub grav_arr gravity)) gmin) in
    ti <- getitem temp_ind 0%nat ;;
    t0 <- getitem temp_arr ti ;;
    gi <- getitem grav_ind 0%nat ;;
    g0 <- getitem grav_arr gi ;;
    if Qgtb (Qabs (temperature - t0)) 250 || Qgtb (Qabs (gravity - g0)) 0.5 then
      print "BAD TEMP/GRAV MATCH" ;;
      ret None
    else
      ti <- getitem temp_ind 0%nat ;;
      temperature <- getitem temp_arr ti ;;
      gi <- getitem grav_ind 0%nat ;;
      gravity <- getitem grav_arr gi ;;
      sp <- icat "merged" temperature metallicity gravity ;;
      error_checking sp "Could not find ATLAS-PHOENIX merge atmosphere model for"
                     temperature metallicity gravity ;;
      ret (Some sp).

(** The resolver.  The last test can never hold once the third has
    failed; a call that matches no test falls off the end of the function
    and returns [None]. *)
Definition get_merged_atmosphere (metallicity temperature gravity : Q)
  : M (option Spectrum) :=
  if Qltb temperature 5000 then
    print "Phoenix Model Atmosphere Used" ;;
    get_phoenixv16_atmosphere metallicity temperature gravity true
  else if Qgtb temperature 5000 && Qltb temperature 5500 then
    print "ATLAS and PHOENIX merged atmosphere used" ;;
    get_atlas_phoenix_atmosphere metallicity temperature gravity
  else if Qgtb temperature 5500 then
    print "ATLAS atmosphere used" ;;
    get_castelli_atmosphere metallicity temperature gravity
  else if Qgtb temperature 20000 then
    print "Warning: ATLAS still used at high temps" ;;
    get_castelli_atmosphere metallicity temperature gravity
  else
    ret None.

End Atmospheres.

(** ** Names for what the fetchers compute

    The definitions below give names to intermediate values of the
    fetchers, so that statements can speak about them; the lemmas of the next
    part connect them to the code above. *)

(** The node arrays, as the fetchers build them. *)
Definition castelli_temp_arr : list Q :=
  np.append (np.arange 3000 (13000 + 1) 250) (np.arange 13000 (50000 + 1) 1000).
Definition castelli_grav_arr : list Q := np.arange 2.0 (5.0 + 0.1) 0.5.
Definition phoenixv16_temp_arr : list Q :=
  np.append (np.arange 2300 (7000 + 1) 100) (np.arange 7000 (12000 + 1) 200).
Definition phoenixv16_grav_arr : list Q := np.arange 2.0 (6.0 + 0.1) 0.5.
Definition atlas_phoenix_temp_arr : list Q := np.array [5250].
Definition atlas_phoenix_grav_arr : list Q := np.arange 0.0 (5.0 + 0.1) 0.5.

(** The value of [np.where(abs(arr - x) == min(abs(arr - x)))[0][0]] and
    of [arr[...]] at it, for a non-empty [arr]. *)
Definition snap_index (arr : list Q) (x : Q) : nat :=
  let d := np.abs (np.sub arr x) in
  match d with
  | [] => 0%nat
  | a :: d' => hd 0%nat (np.where_ (np.eq d (min_from a d')))
  end.

Definition snap (arr : list Q) (x : Q) : Q := nth (snap_index arr x) arr 0.

(** [nearest arr x i v]: [v] is the node at index [i]; no node of [arr] is
    closer to [x]; every node at a lower index is strictly farther. *)
Definition nearest (arr : list Q) (x : Q) (i : nat) (v : Q) : Prop :=
  nth_error arr i = Some v /\
  (forall j w, nth_error arr j = Some w -> Qabs (v - x) <= Qabs (w - x)) /\
  (forall j w, (j < i)%nat -> nth_error arr j = Some w -> Qabs (v - x) < Qabs (w - x)).


(** The gravity the Castelli-Kurucz fetcher queries with, from the snapped one. *)
Definition castelli_gravity (gravity : Q) : Q :=
  if Qltb gravity 2.5 then 2.5 else gravity.

(** The lines [error_checking] prints. *)
Definition diagnostic (msg : string) (temperature metallicity gravity : Q) : trace :=
  [Print msg;
   PrintFmt "  temperature = %d" temperature;
   PrintFmt "  metallicity = %.1f" metallicity;
   PrintFmt "  log gravity = %.1f" gravity].

Definition all_zero (fl : list Q) : bool := forallb (fun v => Qeq_bool v 0) fl.

(** Consecutive nodes of [l] are at most [2 * d] apart. *)
Fixpoint covered (d : Q) (l : list Q) : bool :=
  match l with
  | a :: ((b :: _) as l') => Qle_bool (b - a) (2 * d) && covered d l'
  | _ => true
  end.

Definition within (lo hi : Q) (l : list Q) : bool :=
  forallb (fun n => Qle_bool lo n && Qle_bool n hi) l.

(** The call of the interpolator, the error check and the return, which
    end every fetcher. *)
Definition query (Icat : string -> Q -> Q -> Q -> Spectrum)
           (grid msg : string) (temperature metallicity gravity : Q)
  : M (option Spectrum) :=
  sp <- icat Icat grid temperature metallicity gravity ;;
  error_checking sp msg temperature metallicity gravity ;;
  ret (Some sp).

(** The single-grid fetchers, as one family. *)
Inductive Fetcher : Type :=
| Kurucz | Castelli | NextGen | AMESdusty | Phoenix | CmfgenRot | CmfgenNoRot
| PhoenixV16 (rebin : bool)
| AtlasPhoenix.

Definition fetch (Icat : string -> Q -> Q -> Q -> Spectrum) (f : Fetcher)
           (metallicity temperature gravity : Q) : M (option Spectrum) :=
  match f with
  | Kurucz => get_kurucz_atmosphere Icat metallicity temperature gravity
  | Castelli => get_castelli_atmosphere Icat metallicity temperature gravity
  | NextGen => get_nextgen_atmosphere Icat metallicity temperature gravity
  | AMESdusty => get_amesdusty_atmosphere Icat metallicity temperature gravity
  | Phoenix => get_phoenix_atmosphere Icat metallicity temperature gravity
  | CmfgenRot => get_cmfgenRot_atmosphere Icat metallicity temperature gravity
  | CmfgenNoRot => get_cmfgenNoRot_atmosphere Icat metallicity temperature gravity
  | PhoenixV16 rebin => get_phoenixv16_atmosphere Icat metallicity temperature gravity rebin
  | AtlasPhoenix => get_atlas_phoenix_atmosphere Icat metallicity temperature gravity
  end.

Definition family_message (f : Fetcher) : string :=
  match f with
  | Kurucz => "Could not find Kurucz 1993 atmosphere model for"
  | Castelli => "Could not find Castelli and Kurucz 2004 atmosphere model for"
  | NextGen => "Could not find NextGen atmosphere model for"
  | AMESdusty => "Could not find AMESdusty Allard+ 2000 atmosphere model for"
  | Phoenix => "Could not find PHOENIX BT-Settl (Allard+ 2011 atmosphere model for"
  | CmfgenRot => "Could not find CMFGEN rotating atmosphere model (Fierro+15) for"
  | CmfgenNoRot => "Could not find CMFGEN non-rotating atmosphere model (Fierro+15) for"
  | PhoenixV16 _ => "Could not find PHOENIXv16 (Husser+13) atmosphere model for"
  | AtlasPhoenix => "Could not find ATLAS-PHOENIX merge atmosphere model for"
  end.

Definition family_grid (f : Fetcher) : string :=
  match f with
  | Kurucz => "k93models"
  | Castelli => "ck04models"
  | NextGen => "nextgen"
  | AMESdusty => "AMESdusty"
  | Phoenix => "phoenix"
  | CmfgenRot => "cmfgenF15_rot"
  | CmfgenNoRot => "cmfgenF15_noRot"
  | PhoenixV16 rebin => if rebin then "phoenix_v16_rebin" else "phoenix_v16"
  | AtlasPhoenix => "merged"
  end.

(** The fetchers that snap the request to a node before they query. *)
Definition snapping (f : Fetcher) : bool :=
  match f with
  | Castelli | PhoenixV16 _ | AtlasPhoenix => true
  | _ => false
  end.

(** Two interpolators to run the fetchers on: one whose spectra are all
    zero, one whose spectra are not. *)
Definition dark_Icat (grid : string) (t m g : Q) : Spectrum :=
  mkSpectrum [1000; 2000; 3000] [0; 0; 0].
Definition lit_Icat (grid : string) (t m g : Q) : Spectrum :=
  mkSpectrum [1000; 2000; 3000] [0; t; 0].

(** The interpolator calls of a trace, in order. *)
Definition is_call (e : Event) : bool :=
  match e with
  | IcatCall _ _ _ _ => true
  | _ => false
  end.

Definition calls (tr : trace) : trace := filter is_call tr.

(** ** The grid-building scripts

    [rebin_phoenixV16] rebuilds the PHOENIX-v16 grid on the wavelengths of a
    Castelli-Kurucz spectrum, [cdbs_PHOENIXv16] rewrites the files of that
    grid with other flux units, [download_CMFGEN_atmospheres] fetches the
    CMFGEN models page by page.  The effects of a script are recorded in a
    trace of their own, in which the events of the fetchers are embedded.
    The functions of other packages (astropy, os, glob, thesis.atmos_comp)
    and the builtins [str.format] and [float] are parameters; the calls into
    the packages are taken to return. *)

Inductive ScriptExn : Type :=
| Exn (e : PyExn)
| AttributeError
| UnboundLocalError
| LookupError.

(** A FITS header, as the cards the script reads or sets. *)
Definition Header : Type := list (string * string).

(** [fits.Column(name=..., format=..., array=...)]. *)
Record Column : Type := mkColumn {
  name : string;
  format : string;
  array : list Q
}.

(** What a script reads of an opened FITS file [hdu]: [hdu[0].header],
    [hdu[1].header], and the columns of [hdu[1].data]. *)
Record HDUList : Type := mkHDUList {
  primary_header : Header;
  table_header : Header;
  table_data : list (list Q)
}.

Inductive ScriptEvent : Type :=
| FetcherEvent (e : Event)
| Getcwd
| Chdir (path : string)
| Glob (pattern : string)
| FitsOpen (path : string)
| FitsClose (path : string)
| PathExists (path : string)
| Mkdir (path : string)
| WriteTo (path : string) (prihdr : Header) (cols : list Column) (tbhdr : Header)
| TableRead (path : string)
| System (cmd : string)
| PrintLine (line : string).

Inductive outcome (A : Type) : Type :=
| Done (a : A)
| Failed (e : ScriptExn).
Arguments Done {A} a.
Arguments Failed {A} e.

Definition Script (A : Type) : Type := (outcome A * list ScriptEvent)%type.

Definition sret {A} (a : A) : Script A := (Done a, []).

Definition sraise {A} (e : ScriptExn) : Script A := (Failed e, []).

Definition sbind {A B} (m : Script A) (f : A -> Script B) : Script B :=
  match m with
  | (Done a, tr) => let '(r, tr') := f a in (r, tr ++ tr')
  | (Failed e, tr) => (Failed e, tr)
  end.

Declare Scope script_scope.
Delimit Scope script_scope with script.
Notation "x <- m ;; k" := (sbind m (fun x => k))
  (at level 61, m at next level, right associativity) : script_scope.
Notation "m ;; k" := (sbind m (fun _ => k))
  (at level 61, right associativity) : script_scope.

(** Code of the fetchers' monad, run from a script. *)
Definition lift {A} (m : M A) : Script A :=
  match m with
  | (Ok a, tr) => (Done a, map FetcherEvent tr)
  | (Raise e, tr) => (Failed (Exn e), map FetcherEvent tr)
  end.

(** [for a in l: body], the variables the body assigns threaded as [s]. *)
Fixpoint for_each {A S} (l : list A) (body : A -> S -> Script S) (s : S) : Script S :=
  match l with
  | [] => sret s
  | a :: l' => sbind (body a s) (for_each l' body)
  end.

(** [sp.wave] and [sp.flux], on what a fetcher returned: reading an
    attribute of [None] raises. *)
Definition attr_wave (sp : option Spectrum) : Script (list Q) :=
  match sp with
  | Some sp => sret (wave sp)
  | None => sraise AttributeError
  end.

Definition attr_flux (sp : option Spectrum) : Script (list Q) :=
  match sp with
  | Some sp => sret (flux sp)
  | None => sraise AttributeError
  end.

(** [sci.field(n)]: the n-th column of a table; a column the table lacks
    is a lookup error (an IndexError or a KeyError, as astropy decides). *)
Definition field (sci : list (list Q)) (n : nat) : Script (list Q) :=
  match nth_error sci n with
  | Some a => sret a
  | None => sraise LookupError
  end.

(** [arr * x], elementwise. *)
Definition times (arr : list Q) (x : Q) : list Q := map (fun v => v * x) arr.

(** The local variables [c1] ... [c13] of [cdbs_PHOENIXv16], by number; a
    variable read before any assignment is an UnboundLocalError. *)
Definition Locals : Type := nat -> option Column.

Definition unbound : Locals := fun _ => None.

Definition store (k : nat) (c : Column) (vars : Locals) : Locals :=
  fun j => if Nat.eqb j k then Some c else vars j.

Definition load (vars : Locals) (k : nat) : Script Column :=
  match vars k with
  | Some c => sret c
  | None => sraise UnboundLocalError
  end.

Fixpoint loads (vars : Locals) (ks : list nat) : Script (list Column) :=
  match ks with
  | [] => sret []
  | k :: ks' => sbind (load vars k) (fun c =>
                sbind (loads vars ks') (fun cs => sret (c :: cs)))
  end.

(** [s.split(sep)] for a separator of one character. *)
Fixpoint split (sep : ascii) (s : string) : list string :=
  match s with
  | EmptyString => [EmptyString]
  | String c s' =>
      if Ascii.eqb c sep then EmptyString :: split sep s'
      else match split sep s' with
           | piece :: pieces => String c piece :: pieces
           | [] => [String c EmptyString]
           end
  end.






Definition os_getcwd (cwd : string) : Script string := (Done cwd, [Getcwd]).

Definition os_chdir (path : string) : Script unit := (Done tt, [Chdir path]).

Definition os_mkdir (path : string) : Script unit := (Done tt, [Mkdir path]).

Definition fits_close (path : string) : Script unit := (Done tt, [FitsClose path]).

Definition writeto (path : string) (prihdr : Header) (cols : list Column)
           (tbhdr : Header) : Script unit :=
  (Done tt, [WriteTo path prihdr cols tbhdr]).

Definition print_line (line : string) : Script unit := (Done tt, [PrintLine line]).

Section Scripts.

Local Open Scope script_scope.

Variable Icat : string -> Q -> Q -> Q -> Spectrum.

(** [os.getcwd()] *)
Variable cwd : string.

(** [glob.glob(pattern)] *)
Variable glob : string -> list string.

(** The FITS file [fits.open(path)] opens. *)
Variable fits_file : string -> HDUList.

(** [os.path.exists(path)] *)
Variable path_exists : string -> bool.

(** [thesis.atmos_comp.rebin_spec(wave, flux, new_wave)] *)
Variable rebin_spec : list Q -> list Q -> list Q -> list Q.

(** [fmt.format(args...)] *)
Variable str_format : string -> list Q -> string.

(** [Table.read(path, format='ascii')['col1']] *)
Variable table_col1 : string -> list string.

(** The builtin [float] on a string; [None] where it raises ValueError. *)
Variable float : string -> option Q.

Definition glob_glob (pattern : string) : Script (list string) :=
  (Done (glob pattern), [Glob pattern]).

Definition fits_open (path : string) : Script HDUList :=
  (Done (fits_file path), [FitsOpen path]).

Definition os_path_exists (path : string) : Script bool :=
  (Done (path_exists path), [PathExists path]).




(** [cdbs_PHOENIXv16]: every file of the directory is read and written
    again, the fluxes scaled by 10^-8.  The counter and the variables
    [c1] ... [c13] live across the iterations of the loop. *)
Definition cdbs_PHOENIXv16 (path_to_cdbs_dir : string) : Script unit :=
  start_dir <- os_getcwd cwd ;;
  os_chdir path_to_cdbs_dir ;;
  files <- glob_glob "*.fits" ;;
  let counter := 0%nat in
  for_each files (fun i '(counter, vars) =>
    let counter := (counter + 1)%nat in
    hdu <- fits_open i ;;
    let header_0 := primary_header hdu in
    let header_1 := table_header hdu in
    let sci := table_data hdu in
    a <- field sci 0 ;;
    let c0 := mkColumn "Wavelength" "D" a in
    vars <-
      (if Nat.leb counter 34 then
       a <- field sci 1 ;;
       let vars := store 1 (mkColumn "g0.0" "E" (times a (10 ^ (-8)))) vars in
       a <- field sci 2 ;;
       let vars := store 2 (mkColumn "g0.5" "E" (times a (10 ^ (-8)))) vars in
       a <- field sci 3 ;;
       let vars := store 3 (mkColumn "g1.0" "E" (times a (10 ^ (-8)))) vars in
       a <- field sci 4 ;;
       let vars := store 4 (mkColumn "g1.5" "E" (times a (10 ^ (-8)))) vars in
       a <- field sci 5 ;;
       let vars := store 5 (mkColumn "g2.0" "E" (times a (10 ^ (-8)))) vars in
       a <- field sci 6 ;;
       let vars := store 6 (mkColumn "g2.5" "E" (times a (10 ^ (-8)))) vars in
       a <- field sci 7 ;;
       let vars := store 7 (mkColumn "g3.0" "E" (times a (10 ^ (-8)))) vars in
       a <- field sci 8 ;;
       let vars := store 8 (mkColumn "g3.5" "E" (times a (10 ^ (-8)))) vars in
       a <- field sci 9 ;;
       let vars := store 9 (mkColumn "g4.0" "E" (times a (10 ^ (-8)))) vars in
       a <- field sci 10 ;;
       let vars := store 10 (mkColumn "g4.5" "E" (times a (10 ^ (-8)))) vars in
       a <- field sci 11 ;;
       let vars := store 11 (mkColumn "g5.0" "E" (times a (10 ^ (-8)))) vars in
       a <- field sci 12 ;;
       let vars := store 12 (mkColumn "g5.5" "E" (times a (10 ^ (-8)))) vars in
       a <- field sci 13 ;;
       let vars := store 13 (mkColumn "g6.0" "E" (times a (10 ^ (-8)))) vars in
       sret vars
     else if Nat.leb counter 37 then
       a <- field sci 1 ;;
       let vars := store 2 (mkColumn "g0.5" "E" (times a (10 ^ (-8)))) vars in
       a <- field sci 2 ;;
       let vars := store 3 (mkColumn "g1.0" "E" (times a (10 ^ (-8)))) vars in
       a <- field sci 3 ;;
       let vars := store 4 (mkColumn "g1.5" "E" (times a (10 ^ (-8)))) vars in
       a <- field sci 4 ;;
       let vars := store 5 (mkColumn "g2.0" "E" (times a (10 ^ (-8)))) vars in
       a <- field sci 5 ;;
       let vars := store 6 (mkColumn "g2.5" "E" (times a (10 ^ (-8)))) vars in
       a <- field sci 6 ;;
       let vars := store 7 (mkColumn "g3.0" "E" (times a (10 ^ (-8)))) vars in
       a <- field sci 7 ;;
       let vars := store 8 (mkColumn "g3.5" "E" (times a (10 ^ (-8)))) vars in
       a <- field sci 8 ;;
       let vars := store 9 (mkColumn "g4.0" "E" (times a (10 ^ (-8)))) vars in
       a <- field sci 9 ;;
       let vars := store 10 (mkColumn "g4.5" "E" (times a (10 ^ (-8)))) vars in
       a <- field sci 10 ;;
       let vars := store 11 (mkColumn "g5.0" "E" (times a (10 ^ (-8)))) vars in
       a <- field sci 11 ;;
       let vars := store 12 (mkColumn "g5.5" "E" (times a (10 ^ (-8)))) vars in
       a <- field sci 12 ;;
       let vars := store 13 (mkColumn "g6.0" "E" (times a (10 ^ (-8)))) vars in
       sret vars
     else if Nat.leb counter 54 then
       a <- field sci 1 ;;
       let vars := store 3 (mkColumn "g1.0" "E" (times a (10 ^ (-8)))) vars in
       a <- field sci 2 ;;
       let vars := store 4 (mkColumn "g1.5" "E" (times a (10 ^ (-8)))) vars in
       a <- field sci 3 ;;
       let vars := store 5 (mkColumn "g2.0" "E" (times a (10 ^ (-8)))) vars in
       a <- field sci 4 ;;
       let vars := store 6 (mkColumn "g2.5" "E" (times a (10 ^ (-8)))) vars in
       a <- field sci 5 ;;
       let vars := store 7 (mkColumn "g3.0" "E" (times a (10 ^ (-8)))) vars in
       a <- field sci 6 ;;
       let vars := store 8 (mkColumn "g3.5" "E" (times a (10 ^ (-8)))) vars in
       a <- field sci 7 ;;
       let vars := store 9 (mkColumn "g4.0" "E" (times a (10 ^ (-8)))) vars in
       a <- field sci 8 ;;
       let vars := store 10 (mkColumn "g4.5" "E" (times a (10 ^ (-8)))) vars in
       a <- field sci 9 ;;
       let vars := store 11 (mkColumn "g5.0" "E" (times a (10 ^ (-8)))) vars in
       a <- field sci 10 ;;
       let vars := store 12 (mkColumn "g5.5" "E" (times a (10 ^ (-8)))) vars in
       a <- field sci 11 ;;
       let vars := store 13 (mkColumn "g6.0" "E" (times a (10 ^ (-8)))) vars in
       sret vars
     else if Nat.leb counter 59 then
       a <- field sci 1 ;;
       let vars := store 4 (mkColumn "g1.5" "E" (times a (10 ^ (-8)))) vars in
       a <- field sci 2 ;;
       let vars := store 5 (mkColumn "g2.0" "E" (times a (10 ^ (-8)))) vars in
       a <- field sci 3 ;;
       let vars := store 6 (mkColumn "g2.5" "E" (times a (10 ^ (-8)))) vars in
       a <- field sci 4 ;;
       let vars := store 7 (mkColumn "g3.0" "E" (times a (10 ^ (-8)))) vars in
       a <- field sci 5 ;;
       let vars := store 8 (mkColumn "g3.5" "E" (times a (10 ^ (-8)))) vars in
       a <- field sci 6 ;;
       let vars := store 9 (mkColumn "g4.0" "E" (times a (10 ^ (-8)))) vars in
       a <- field sci 7 ;;
       let vars := store 10 (mkColumn "g4.5" "E" (times a (10 ^ (-8)))) vars in
       a <- field sci 8 ;;
       let vars := store 11 (mkColumn "g5.0" "E" (times a (10 ^ (-8)))) vars in
       a <- field sci 9 ;;
       let vars := store 12 (mkColumn "g5.5" "E" (times a (10 ^ (-8)))) vars in
       a <- field sci 10 ;;
       let vars := store 13 (mkColumn "g6.0" "E" (times a (10 ^ (-8)))) vars in
       sret vars
     else
       a <- field sci 1 ;;
       let vars := store 5 (mkColumn "g2.0" "E" (times a (10 ^ (-8)))) vars in
       a <- field sci 2 ;;
       let vars := store 6 (mkColumn "g2.5" "E" (times a (10 ^ (-8)))) vars in
       a <- field sci 3 ;;
       let vars := store 7 (mkColumn "g3.0" "E" (times a (10 ^ (-8)))) vars in
       a <- field sci 4 ;;
       let vars := store 8 (mkColumn "g3.5" "E" (times a (10 ^ (-8)))) vars in
       a <- field sci 5 ;;
       let vars := store 9 (mkColumn "g4.0" "E" (times a (10 ^ (-8)))) vars in
       a <- field sci 6 ;;
       let vars := store 10 (mkColumn "g4.5" "E" (times a (10 ^ (-8)))) vars in
       a <- field sci 7 ;;
       let vars := store 11 (mkColumn "g5.0" "E" (times a (10 ^ (-8)))) vars in
       a <- field sci 8 ;;
       let vars := store 12 (mkColumn "g5.5" "E" (times a (10 ^ (-8)))) vars in
       a <- field sci 9 ;;
       let vars := store 13 (mkColumn "g6.0" "E" (times a (10 ^ (-8)))) vars in
       sret vars) ;;
    cols <-
      (if Nat.leb counter 35 then
         cs <- loads vars [1; 2; 3; 4; 5; 6; 7; 8; 9; 10; 11; 12; 13]%nat ;;
         sret (c0 :: cs)
       else if Nat.leb counter 37 then
         cs <- loads vars [2; 3; 4; 5; 6; 7; 8; 9; 10; 11; 12; 13]%nat ;;
         sret (c0 :: cs)
       else if Nat.leb counter 54 then
         cs <- loads vars [3; 4; 5; 6; 7; 8; 9; 10; 11; 12; 13]%nat ;;
         sret (c0 :: cs)
       else if Nat.leb counter 59 then
         cs <- loads vars [4; 5; 6; 7; 8; 9; 10; 11; 12; 13]%nat ;;
         sret (c0 :: cs)
       else
         cs <- loads vars [5; 6; 7; 8; 9; 10; 11; 12; 13]%nat ;;
         sret (c0 :: cs)) ;;
    let tbhdr :=
      [("TUNIT1", "ANGSTROM"); ("TUNIT2", "FLAM"); ("TUNIT3", "FLAM");
       ("TUNIT4", "FLAM"); ("TUNIT5", "FLAM"); ("TUNIT6", "FLAM");
       ("TUNIT7", "FLAM"); ("TUNIT8", "FLAM"); ("TUNIT9", "FLAM");
       ("TUNIT10", "FLAM"); ("TUNIT11", "FLAM"); ("TUNIT12", "FLAM");
       ("TUNIT13", "FLAM"); ("TUNIT14", "FLAM")]%string in
    writeto i header_0 cols tbhdr ;;
    fits_close i ;;
    print_line (str_format "Done {0:2.0f} of {1:2.0f}"
                           [inject_Z (Z.of_nat counter);
                            inject_Z (Z.of_nat (List.length files))]) ;;
    sret (counter, vars)) (counter, unbound) ;;
  sret tt.

(** [rebin_phoenixV16]: one table per temperature of the PHOENIX-v16
    arrays, with one column per gravity.  The Castelli-Kurucz fetcher is
    called with its defaults (0, 20000, 4), the PHOENIX-v16 fetcher with its
    defaults [metallicity=0] and [rebin=True]. *)
Definition rebin_phoenixV16 (cdbs_path : string) : Script unit :=
  sp_atlas <- lift (get_castelli_atmosphere Icat 0 20000 4) ;;
  let tmp :=
    (cdbs_path ++ "/grid/phoenix_v16/phoenixm00/phoenixm00_02400.fits")%string in
  phoenix_hdu <- fits_open tmp ;;
  let header0 := primary_header phoenix_hdu in
  let path := (cdbs_path ++ "/grid/phoenix_v16_rebin/")%string in
  there <- os_path_exists path ;;
  (if negb there
   then os_mkdir path ;; os_mkdir (path ++ "phoenixm00")%string
   else sret tt) ;;
  let t1 := np.arange 2300 (7000 + 1) 100 in
  let t2 := np.arange 7000 (12000 + 1) 200 in
  let temp_arr := np.append t1 t2 in
  let grav_arr := np.arange 2.0 (6.0 + 0.1) 0.5 in
  let count := 0 in
  for_each temp_arr (fun t count =>
    let count := count + 1 in
    let outfile := str_format "phoenixm00_{0:05.0f}.fits" [t] in
    let flux_arr := [] in
    flux_arr <- for_each grav_arr (fun g flux_arr =>
      sp_phoenix <- lift (get_phoenixv16_atmosphere Icat 0 t g true) ;;
      w <- attr_wave sp_phoenix ;;
      f <- attr_flux sp_phoenix ;;
      w_atlas <- attr_wave sp_atlas ;;
      let flux_rebin := rebin_spec w f w_atlas in
      sret (flux_arr ++ [flux_rebin])) flux_arr ;;
    w_atlas <- attr_wave sp_atlas ;;
    let c0 := mkColumn "Wavelength" "D" w_atlas in
    f0 <- lift (getitem flux_arr 0%nat) ;;
    let c1 := mkColumn "g2.0" "E" f0 in
    f1 <- lift (getitem flux_arr 1%nat) ;;
    let c2 := mkColumn "g2.5" "E" f1 in
    f2 <- lift (getitem flux_arr 2%nat) ;;
    let c3 := mkColumn "g3.0" "E" f2 in
    f3 <- lift (getitem flux_arr 3%nat) ;;
    let c4 := mkColumn "g3.5" "E" f3 in
    f4 <- lift (getitem flux_arr 4%nat) ;;
    let c5 := mkColumn "g4.0" "E" f4 in
    f5 <- lift (getitem flux_arr 5%nat) ;;
    let c6 := mkColumn "g4.5" "E" f5 in
    f6 <- lift (getitem flux_arr 6%nat) ;;
    let c7 := mkColumn "g5.0" "E" f6 in
    f7 <- lift (getitem flux_arr 7%nat) ;;
    let c8 := mkColumn "g5.5" "E" f7 in
    f8 <- lift (getitem flux_arr 8%nat) ;;
    let c9 := mkColumn "g6.0" "E" f8 in
    let cols := [c0; c1; c2; c3; c4; c5; c6; c7; c8; c9] in
    let tbhdr :=
      [("TUNIT1", "ANGSTROM"); ("TUNIT2", "FLAM"); ("TUNIT3", "FLAM");
       ("TUNIT4", "FLAM"); ("TUNIT5", "FLAM"); ("TUNIT6", "FLAM");
       ("TUNIT7", "FLAM"); ("TUNIT8", "FLAM"); ("TUNIT9", "FLAM");
       ("TUNIT10", "FLAM")]%string in
    writeto ((path ++ "phoenixm00/") ++ outfile)%string header0 cols tbhdr ;;
    print_line (str_format "Done file {0:1f} of {1:1f}"
                           [count; inject_Z (Z.of_nat (List.length temp_arr))]) ;;
    sret count) count ;;
  sret tt.

End Scripts.

(** What a script's trace holds of the fetchers' events, and of the FITS
    files written. *)
Definition fetched (tr : list ScriptEvent) : trace :=
  flat_map (fun e => match e with FetcherEvent e => [e] | _ => [] end) tr.

Definition is_write (e : ScriptEvent) : bool :=
  match e with
  | WriteTo _ _ _ _ => true
  | _ => false
  end.

Definition written (tr : list ScriptEvent) : list ScriptEvent := filter is_write tr.

(** The table [rebin_phoenixV16] is to write for the temperature [t]: the
    wavelengths of the Castelli-Kurucz spectrum, then under each gravity
    label the PHOENIX-v16 spectrum of that gravity, rebinned. *)
Definition rebin_labels : list string :=
  ["g2.0"; "g2.5"; "g3.0"; "g3.5"; "g4.0"; "g4.5"; "g5.0"; "g5.5"; "g6.0"]%string.

Definition rebin_units : Header :=
  [("TUNIT1", "ANGSTROM"); ("TUNIT2", "FLAM"); ("TUNIT3", "FLAM");
   ("TUNIT4", "FLAM"); ("TUNIT5", "FLAM"); ("TUNIT6", "FLAM");
   ("TUNIT7", "FLAM"); ("TUNIT8", "FLAM"); ("TUNIT9", "FLAM");
   ("TUNIT10", "FLAM")]%string.

Definition rebinned_table (Icat : string -> Q -> Q -> Q -> Spectrum)
           (fits_file : string -> HDUList)
           (rebin_spec : list Q -> list Q -> list Q -> list Q)
           (str_format : string -> list Q -> string)
           (cdbs_path : string) (t : Q) : ScriptEvent :=
  let sp_atlas := Icat "ck04models"%string 20000 0 4 in
  WriteTo
    (((cdbs_path ++ "/grid/phoenix_v16_rebin/") ++ "phoenixm00/")
     ++ str_format "phoenixm00_{0:05.0f}.fits" [t])%string
    (primary_header
       (fits_file
          (cdbs_path ++ "/grid/phoenix_v16/phoenixm00/phoenixm00_02400.fits")%string))
    (mkColumn "Wavelength"%string "D"%string (wave sp_atlas)
     :: map (fun '(label, g) =>
               let sp_phoenix := Icat "phoenix_v16_rebin"%string t 0 g in
               mkColumn label "E"%string
                        (rebin_spec (wave sp_phoenix) (flux sp_phoenix) (wave sp_atlas)))
            (combine rebin_labels phoenixv16_grav_arr))
    rebin_units.

(** The table [cdbs_PHOENIXv16] writes from the columns of one file, when
    it is the [counter]-th of the directory: the wavelengths, then the flux
    columns scaled, under the last labels of g0.0 ... g6.0. *)
Definition cdbs_labels : list string :=
  ["g0.0"; "g0.5"; "g1.0"; "g1.5"; "g2.0"; "g2.5"; "g3.0"; "g3.5"; "g4.0"; "g4.5";
   "g5.0"; "g5.5"; "g6.0"]%string.

Definition cdbs_units : Header :=
  [("TUNIT1", "ANGSTROM"); ("TUNIT2", "FLAM"); ("TUNIT3", "FLAM");
   ("TUNIT4", "FLAM"); ("TUNIT5", "FLAM"); ("TUNIT6", "FLAM");
   ("TUNIT7", "FLAM"); ("TUNIT8", "FLAM"); ("TUNIT9", "FLAM");
   ("TUNIT10", "FLAM"); ("TUNIT11", "FLAM"); ("TUNIT12", "FLAM");
   ("TUNIT13", "FLAM"); ("TUNIT14", "FLAM")]%string.

(** How many of the labels the counter-th file is taken to lack. *)
Definition cdbs_missing (counter : nat) : nat :=
  if Nat.leb counter 34 then 0%nat
  else if Nat.leb counter 37 then 1%nat
  else if Nat.leb counter 54 then 2%nat
  else if Nat.leb counter 59 then 3%nat
  else 4%nat.

Definition flux_column (label : string) (sci : list (list Q)) (n : nat) : Column :=
  mkColumn label "E" (times (nth n sci []) (10 ^ (-8))).

Definition own_flux_columns (counter : nat) (sci : list (list Q)) : list Column :=
  map (fun '(label, n) => flux_column label sci n)
      (combine (skipn (cdbs_missing counter) cdbs_labels) (seq 1 13)).

(** The table of the [counter]-th file [i] of [files]: its own columns,
    and for the 35th file a column g0.0 before them, which comes from the
    34th file. *)
Definition cdbs_table (fits_file : string -> HDUList) (files : list string)
           (counter : nat) (i : string) : ScriptEvent :=
  let sci := table_data (fits_file i) in
  let sci34 := table_data (fits_file (nth 33 files EmptyString)) in
  WriteTo i (primary_header (fits_file i))
          (mkColumn "Wavelength" "D" (nth 0 sci [])
           :: (if Nat.eqb counter 35 then [flux_column "g0.0" sci34 1] else [])
           ++ own_flux_columns counter sci)
          cdbs_units.

(** Every file has the columns the script reads of it: the wavelengths and
    one flux column per label it is taken to have. *)
Definition cdbs_complete (fits_file : string -> HDUList) (files : list string) : bool :=
  forallb (fun '(counter, i) =>
             Nat.ltb (13 - cdbs_missing counter)
                     (List.length (table_data (fits_file i))))
          (combine (seq 1 (List.length files)) files).









(** A directory of 36 files to run [cdbs_PHOENIXv16] on: the file names
    differ in their first character, and every file has 14 columns of one
    value, which tells the file and the column. *)
Definition demo_glob (pattern : string) : list string :=
  map (fun n => String (Ascii.ascii_of_nat (48 + n)) ".fits") (seq 0 36).

Definition demo_file (path : string) : HDUList :=
  let code :=
    match path with
    | String a _ => Ascii.nat_of_ascii a
    | EmptyString => 0%nat
    end in
  mkHDUList [] [] (map (fun n => [inject_Z (Z.of_nat (100 * code + n))]) (seq 0 14)).




(** Equality of two fractions as written, numerator and denominator. *)
Definition Qsame (a b : Q) : bool :=
  Z.eqb (Qnum a) (Qnum b) && Pos.eqb (Qden a) (Qden b).

(** ** The size of a request

    The largest magnitude of a request for which the statements below are
    made where they depend on the choice of a node: up to it the program's
    binary64 arithmetic chooses the node the exact arithmetic chooses. *)
Definition bound : Q := 10 ^ 15.

Definition in_range (x : Q) : Prop := - bound <= x /\ x <= bound.

(** ** The Castelli-Kurucz fetcher on binary64 numbers

    The code of [get_castelli_atmosphere] up to the call of the
    interpolator, run on the kernel's binary64 numbers: [Ok None] when the
    request is rejected, [Ok (Some (t, m, g))] with the arguments of the call,
    or the exception raised.  The node arrays hold integers and halves, which
    binary64 holds exactly. *)
Module Binary64.

Definition of_Z (z : Z) : float :=
  match z with
  | Z0 => PrimFloat.zero
  | Zpos p => PrimFloat.of_uint63 (Uint63.of_Z (Zpos p))
  | Zneg p => PrimFloat.opp (PrimFloat.of_uint63 (Uint63.of_Z (Zpos p)))
  end.

Definition of_Q (q : Q) : float :=
  PrimFloat.div (of_Z (Qnum q)) (of_Z (Zpos (Qden q))).


(** [abs(arr - x)] *)
Definition distances (arr : list float) (x : float) : list float :=
  map (fun a => PrimFloat.abs (PrimFloat.sub a x)) arr.

(** The builtin [min]: an item replaces the current one when it compares
    below it, which a NaN never does. *)
Fixpoint min_from (cur : float) (l : list float) : float :=
  match l with
  | [] => cur
  | x :: l' => min_from (if PrimFloat.ltb x cur then x else cur) l'
  end.

Definition min (l : list float) : res float :=
  match l with
  | [] => Raise ValueError
  | x :: l' => Ok (min_from x l')
  end.

Definition item {A} (l : list A) (i : nat) : res A :=
  match nth_error l i with
  | Some a => Ok a
  | None => Raise IndexError
  end.

Definition and_then {A B} (r : res A) (f : A -> res B) : res B :=
  match r with
  | Ok a => f a
  | Raise e => Raise e
  end.

Definition get_castelli_atmosphere (metallicity temperature gravity : float)
  : res (option (float * float * float)) :=
  if PrimFloat.ltb temperature 3000 then Ok None
  else
    let temp_arr := map of_Q castelli_temp_arr in
    let grav_arr := map of_Q castelli_grav_arr in
    and_then (min (distances temp_arr temperature)) (fun tmin =>
    let temp_ind :=
      np.where_ (map (fun d => PrimFloat.eqb d tmin) (distances temp_arr temperature)) in
    and_then (min (distances grav_arr gravity)) (fun gmin =>
    let grav_ind :=
      np.where_ (map (fun d => PrimFloat.eqb d gmin) (distances grav_arr gravity)) in
    and_then (item temp_ind 0%nat) (fun ti =>
    and_then (item temp_arr ti) (fun temperature =>
    and_then (item grav_ind 0%nat) (fun gi =>
    and_then (item grav_arr gi) (fun gravity =>
    let gravity := if PrimFloat.ltb gravity 2.5 then 2.5%float else gravity in
    Ok (Some (temperature, metallicity, gravity)))))))).

End Binary64.

(** * Properties *)

(** ** Comparisons *)

Lemma Qltb_true x y : Qltb x y = true <-> x < y.
Proof.
  unfold Qltb. rewrite negb_true_iff.
  split; intros H.
  - apply Qnot_le_lt. intros Hle. apply Qle_bool_iff in Hle. congruence.
  - destruct (Qle_bool y x) eqn:E; [|reflexivity].
    apply Qle_bool_iff in E. exfalso. apply (Qlt_not_le _ _ H E).
Qed.

Lemma Qltb_false x y : Qltb x y = false <-> y <= x.
Proof.
  unfold Qltb. rewrite negb_false_iff. apply Qle_bool_iff.
Qed.

Lemma Qgtb_true x y : Qgtb x y = true <-> y < x.
Proof. apply Qltb_true. Qed.

Lemma Qgtb_false x y : Qgtb x y = false <-> x <= y.
Proof. apply Qltb_false. Qed.

Lemma Qltb_spec x y : reflect (x < y) (Qltb x y).
Proof.
  destruct (Qltb x y) eqn:E; constructor.
  - now apply Qltb_true.
  - apply Qltb_false in E. now apply Qle_not_lt.
Qed.

Lemma Qeq_Qltb_l x x' y : x == x' -> Qltb x y = Qltb x' y.
Proof.
  intros E. destruct (Qltb_spec x y), (Qltb_spec x' y); try reflexivity;
    rewrite E in *; contradiction.
Qed.

Lemma Qeq_Qltb_r x y y' : y == y' -> Qltb x y = Qltb x y'.
Proof.
  intros E. destruct (Qltb_spec x y), (Qltb_spec x y'); try reflexivity;
    rewrite E in *; contradiction.
Qed.

(** ** The effect monad *)

Lemma bind_ret_l {A B} (a : A) (f : A -> M B) : bind (ret a) f = f a.
Proof. unfold bind, ret. destruct (f a). reflexivity. Qed.

Lemma bind_print {B} line (k : M B) :
  (print line ;; k) = (fst k, Print line :: snd k).
Proof. unfold bind, print. destruct k. reflexivity. Qed.

Lemma bind_raise {A B} e (f : A -> M B) : bind (raise e) f = raise e.
Proof. reflexivity. Qed.

(** ** The builtin [min] and [np.where] *)

Lemma min_from_le_cur l : forall c, min_from c l <= c.
Proof.
  induction l as [|a l IH]; intros c; simpl.
  - apply Qle_refl.
  - destruct (Qltb_spec a c) as [Hlt|Hge].
    + eapply Qle_trans; [apply IH|]. now apply Qlt_le_weak.
    + apply IH.
Qed.

Lemma min_from_le l : forall c x, In x l -> min_from c l <= x.
Proof.
  induction l as [|a l IH]; simpl; intros c x Hin; [contradiction|].
  destruct Hin as [->|Hin].
  - destruct (Qltb_spec x c) as [Hlt|Hge].
    + apply min_from_le_cur.
    + eapply Qle_trans; [apply min_from_le_cur|]. now apply Qnot_lt_le.
  - now apply IH.
Qed.

Lemma min_from_in l : forall c, min_from c l = c \/ In (min_from c l) l.
Proof.
  induction l as [|a l IH]; simpl; intros c.
  - now left.
  - destruct (Qltb a c).
    + destruct (IH a) as [E|Hin]; [right; left; now symmetry | right; now right].
    + destruct (IH c) as [E|Hin]; [now left | right; now right].
Qed.

Lemma where_from_hd mask : forall k j,
  nth_error mask j = Some true ->
  exists i, nth_error mask i = Some true /\
            (forall j', (j' < i)%nat -> nth_error mask j' = Some false) /\
            nth_error (np.where_from k mask) 0 = Some (k + i)%nat.
Proof.
  induction mask as [|b mask IH]; intros k j H.
  - destruct j; discriminate.
  - destruct b.
    + exists 0%nat. simpl. repeat split.
      * intros j' Hj'. inversion Hj'.
      * f_equal. apply plus_n_O.
    + destruct j as [|j]; simpl in H; [discriminate|].
      destruct (IH (S k) j H) as (i & Hi & Hlow & Hhd).
      exists (S i). split; [exact Hi|split].
      * intros [|j'] Hj'; simpl; [reflexivity|]. apply Hlow.
        now apply PeanoNat.Nat.succ_lt_mono.
      * cbn [np.where_from]. rewrite Hhd. f_equal. now rewrite <- plus_n_Sm.
Qed.

Lemma where_from_bound mask : forall k i,
  In i (np.where_from k mask) -> (i < k + List.length mask)%nat.
Proof.
  induction mask as [|b mask IH]; simpl; intros k i Hin; [contradiction|].
  assert (Hrec : In i (np.where_from (S k) mask) -> (i < k + S (List.length mask))%nat).
  { intros H. apply IH in H. now rewrite <- plus_n_Sm. }
  destruct b; [destruct Hin as [<-|Hin]|]; auto.
  rewrite <- plus_n_Sm. apply PeanoNat.Nat.lt_succ_r, PeanoNat.Nat.le_add_r.
Qed.

(** ** Snapping to the nearest node *)

Lemma dists_nth arr x j :
  nth_error (np.abs (np.sub arr x)) j
  = option_map (fun a => Qabs (a - x)) (nth_error arr j).
Proof.
  unfold np.abs, np.sub. rewrite map_map. apply nth_error_map.
Qed.

Lemma dists_length arr x : List.length (np.abs (np.sub arr x)) = List.length arr.
Proof. unfold np.abs, np.sub. now rewrite !length_map. Qed.

Lemma snap_index_spec arr x :
  arr <> [] ->
  exists mn v,
    min (np.abs (np.sub arr x)) = ret mn /\
    nth_error (np.where_ (np.eq (np.abs (np.sub arr x)) mn)) 0 = Some (snap_index arr x) /\
    nth_error arr (snap_index arr x) = Some v /\
    nearest arr x (snap_index arr x) v.
Proof.
  intros Hne.
  unfold snap_index. cbv zeta.
  destruct (np.abs (np.sub arr x)) as [|d0 d'] eqn:Ed.
  { destruct arr; [congruence | discriminate]. }
  set (mn := min_from d0 d').
  assert (Hin : In mn (d0 :: d')).
  { destruct (min_from_in d' d0) as [E|H]; [left; now symmetry | now right]. }
  assert (Hle : forall y, In y (d0 :: d') -> mn <= y).
  { intros y [<-|Hy]; [apply min_from_le_cur | now apply min_from_le]. }
  destruct (In_nth_error _ _ Hin) as (j & Hj).
  assert (Hmask : nth_error (np.eq (d0 :: d') mn) j = Some true).
  { unfold np.eq. rewrite nth_error_map, Hj. simpl. now rewrite Qeq_bool_refl. }
  destruct (where_from_hd _ 0%nat _ Hmask) as (i & Hi & Hlow & Hhd).
  simpl plus in Hhd.
  assert (Ehd : hd 0%nat (np.where_ (np.eq (d0 :: d') mn)) = i).
  { unfold np.where_. destruct (np.where_from 0 (np.eq (d0 :: d') mn)); simpl in *;
      congruence. }
  rewrite Ehd.
  assert (Hd : forall k b, nth_error (np.eq (d0 :: d') mn) k = Some b ->
             exists w, nth_error arr k = Some w /\ Qeq_bool (Qabs (w - x)) mn = b).
  { intros k b Hk. unfold np.eq in Hk. rewrite nth_error_map, <- Ed, dists_nth in Hk.
    destruct (nth_error arr k) as [w|]; cbn [option_map] in Hk; [|discriminate].
    exists w. split; [reflexivity | now inversion Hk]. }
  destruct (Hd _ _ Hi) as (v & Hv & Ev).
  apply Qeq_bool_iff in Ev.
  exists mn, v. repeat split; trivial.
  - intros k w Hk. rewrite Ev. apply Hle. rewrite <- Ed.
    apply nth_error_In with k. now rewrite dists_nth, Hk.
  - intros k w Hlt Hk. rewrite Ev.
    destruct (Hd _ _ (Hlow _ Hlt)) as (w' & Hw' & Ew').
    assert (w' = w) by congruence. subst w'.
    apply Qeq_bool_neq in Ew'.
    assert (Hmn : mn <= Qabs (w - x)).
    { apply Hle. rewrite <- Ed. apply nth_error_In with k.
      now rewrite dists_nth, Hk. }
    destruct (Qle_lt_or_eq _ _ Hmn) as [Hlt'|Heq]; trivial.
    exfalso. apply Ew'. now symmetry.
Qed.

Lemma getitem_nth {A} (l : list A) i a : nth_error l i = Some a -> getitem l i = ret a.
Proof. unfold getitem. now intros ->. Qed.

Lemma take_ok {A} (l : list A) idx :
  (forall i, In i idx -> (i < List.length l)%nat) ->
  exists r, take l idx = ret r /\
            forall k i, nth_error idx k = Some i -> nth_error r k = nth_error l i.
Proof.
  induction idx as [|i idx IH]; intros Hb.
  - exists []. split; [reflexivity|]. intros [|k] i H; discriminate.
  - destruct IH as (r & Hr & Hnth). { intros j Hj. apply Hb. now right. }
    destruct (nth_error l i) as [a|] eqn:Ea.
    2:{ apply nth_error_None in Ea. exfalso.
        apply (PeanoNat.Nat.lt_irrefl i).
        eapply PeanoNat.Nat.lt_le_trans; [apply Hb; now left | exact Ea]. }
    exists (a :: r). split.
    + cbn [take]. rewrite (getitem_nth _ _ _ Ea), bind_ret_l, Hr, bind_ret_l.
      reflexivity.
    + intros [|k] j H; simpl in *; [congruence | now apply Hnth].
Qed.

Lemma snap_nearest arr x : arr <> [] -> nearest arr x (snap_index arr x) (snap arr x).
Proof.
  intros Hne. destruct (snap_index_spec arr x Hne) as (mn & v & _ & _ & Hv & Hn).
  unfold snap. now rewrite (nth_error_nth _ _ 0 Hv).
Qed.

(** The steps of the snapping code never raise on a non-empty array, and
    yield [snap_index] and [snap]. *)
Lemma snap_steps arr x :
  arr <> [] ->
  exists mn,
    min (np.abs (np.sub arr x)) = ret mn /\
    getitem (np.where_ (np.eq (np.abs (np.sub arr x)) mn)) 0 = ret (snap_index arr x) /\
    getitem arr (snap_index arr x) = ret (snap arr x) /\
    exists sel, take arr (np.where_ (np.eq (np.abs (np.sub arr x)) mn)) = ret sel /\
                getitem sel 0 = ret (snap arr x).
Proof.
  intros Hne. destruct (snap_index_spec arr x Hne) as (mn & v & Hmin & Hwh & Hv & _).
  assert (Ev : snap arr x = v) by (unfold snap; now rewrite (nth_error_nth _ _ 0 Hv)).
  exists mn. rewrite Ev. repeat split; trivial; try now apply getitem_nth.
  destruct (take_ok arr (np.where_ (np.eq (np.abs (np.sub arr x)) mn))) as (sel & Hsel & Hnth).
  { intros i Hi. apply where_from_bound in Hi. simpl in Hi.
    unfold np.eq in Hi. now rewrite length_map, dists_length in Hi. }
  exists sel. split; trivial. apply getitem_nth. now rewrite (Hnth _ _ Hwh).
Qed.

Lemma nearest_le arr x i v n : nearest arr x i v -> In n arr -> Qabs (v - x) <= Qabs (n - x).
Proof.
  intros (_ & Hmin & _) Hin. destruct (In_nth_error _ _ Hin) as (j & Hj). eauto.
Qed.

Lemma nearest_In arr x i v : nearest arr x i v -> In v arr.
Proof. intros (Hv & _). eapply nth_error_In; eauto. Qed.

Lemma nearest_unique arr x i v i' v' :
  nearest arr x i v -> nearest arr x i' v' -> i = i' /\ v = v'.
Proof.
  intros (Hv & Hmin & Hlow) (Hv' & Hmin' & Hlow').
  assert (i = i').
  { destruct (PeanoNat.Nat.lt_trichotomy i i') as [H|[H|H]]; trivial; exfalso.
    - apply (Qlt_irrefl (Qabs (v' - x))).
      eapply Qlt_le_trans; [apply (Hlow' _ _ H Hv) | apply (Hmin _ _ Hv')].
    - apply (Qlt_irrefl (Qabs (v - x))).
      eapply Qlt_le_trans; [apply (Hlow _ _ H Hv') | apply (Hmin' _ _ Hv)]. }
  subst i'. split; congruence.
Qed.



Lemma cover d l : forall a, covered d (a :: l) = true ->
  forall x, a - d <= x -> x <= last (a :: l) 0 + d ->
  exists n, In n (a :: l) /\ Qabs (n - x) <= d.
Proof.
  induction l as [|b l IH]; intros a Hc x Hlo Hhi.
  - exists a. split; [now left|]. simpl in Hhi. apply Qabs_Qle_condition. lra.
  - cbn [covered] in Hc. apply andb_prop in Hc. destruct Hc as [Hgap Hc].
    apply Qle_bool_iff in Hgap.
    destruct (Qlt_le_dec (a + d) x) as [Hfar|Hnear].
    + destruct (IH b Hc x) as (n & Hn & Hd); [lra | exact Hhi |].
      exists n. split; [now right | exact Hd].
    + exists a. split; [now left|]. apply Qabs_Qle_condition. lra.
Qed.

(** ** The end of every fetcher: query, check, return *)

Lemma where_ne_zero fl : forall k,
  Nat.eqb (List.length (np.where_from k (np.ne fl 0))) 0 = all_zero fl.
Proof.
  induction fl as [|v fl IH]; intros k; [reflexivity|].
  cbn [np.ne map np.where_from all_zero forallb]. unfold Qneb.
  destruct (Qeq_bool v 0); cbn [negb andb]; [apply IH | reflexivity].
Qed.

Lemma all_zero_Forall fl : all_zero fl = true <-> Forall (fun v => v == 0) fl.
Proof.
  unfold all_zero. rewrite forallb_forall, Forall_forall.
  split; intros H v Hv; apply Qeq_bool_iff; auto.
Qed.

Lemma all_zero_Exists fl : all_zero fl = false <-> Exists (fun v => ~ v == 0) fl.
Proof.
  induction fl as [|v fl IH]; cbn [all_zero forallb].
  - split; [discriminate | intros H; inversion H].
  - rewrite Exists_cons, <- IH. unfold all_zero.
    destruct (Qeq_bool v 0) eqn:E; cbn [andb].
    + apply Qeq_bool_iff in E. tauto.
    + apply Qeq_bool_neq in E. tauto.
Qed.

Section Fetchers.

Variable Icat : string -> Q -> Q -> Q -> Spectrum.

Lemma error_checking_eq sp msg t m g :
  error_checking sp msg t m g
  = (Ok tt, if all_zero (flux sp) then diagnostic msg t m g else []).
Proof.
  unfold error_checking. cbv zeta. unfold np.where_. rewrite where_ne_zero.
  destruct (all_zero (flux sp)); reflexivity.
Qed.

Lemma query_eq grid msg t m g :
  query Icat grid msg t m g
  = (Ok (Some (Icat grid t m g)),
     IcatCall grid t m g
       :: if all_zero (flux (Icat grid t m g)) then diagnostic msg t m g else []).
Proof.
  unfold query, icat. cbn [bind]. rewrite error_checking_eq. cbn [bind ret].
  now rewrite app_nil_r.
Qed.

Lemma query_calls grid msg t m g grid' t' m' g' :
  In (IcatCall grid' t' m' g') (snd (query Icat grid msg t m g)) ->
  grid' = grid /\ t' = t /\ m' = m /\ g' = g.
Proof.
  rewrite query_eq. cbn [snd]. intros [E|H].
  - now inversion E.
  - exfalso. destruct (all_zero _); [|contradiction].
    unfold diagnostic in H. simpl in H. intuition discriminate.
Qed.

(** *** The fetchers in closed form *)

Lemma castelli_temp_arr_nonempty : castelli_temp_arr <> [].
Proof. intros H. apply (f_equal (@List.length Q)) in H. vm_compute in H. discriminate. Qed.
Lemma castelli_grav_arr_nonempty : castelli_grav_arr <> [].
Proof. intros H. apply (f_equal (@List.length Q)) in H. vm_compute in H. discriminate. Qed.
Lemma phoenixv16_temp_arr_nonempty : phoenixv16_temp_arr <> [].
Proof. intros H. apply (f_equal (@List.length Q)) in H. vm_compute in H. discriminate. Qed.
Lemma phoenixv16_grav_arr_nonempty : phoenixv16_grav_arr <> [].
Proof. intros H. apply (f_equal (@List.length Q)) in H. vm_compute in H. discriminate. Qed.
Lemma atlas_phoenix_temp_arr_nonempty : atlas_phoenix_temp_arr <> [].
Proof. discriminate. Qed.
Lemma atlas_phoenix_grav_arr_nonempty : atlas_phoenix_grav_arr <> [].
Proof. intros H. apply (f_equal (@List.length Q)) in H. vm_compute in H. discriminate. Qed.

(** [snap_facts] brings in what [snap_steps] says of one axis, and
    [run] then executes the fetcher's steps with it. *)
Ltac snap_facts Hne x :=
  let mn := fresh "mn" in
  let Hmin := fresh "Hmin" in
  let Hidx := fresh "Hidx" in
  let Hval := fresh "Hval" in
  let sel := fresh "sel" in
  let Hsel := fresh "Hsel" in
  let Hsel0 := fresh "Hsel0" in
  destruct (snap_steps _ x Hne) as (mn & Hmin & Hidx & Hval & sel & Hsel & Hsel0).

Ltac run :=
  repeat first
    [ rewrite bind_ret_l
    | match goal with
      | H : ?c = ret _ |- context [bind ?c _] => rewrite H
      end ].

Lemma get_castelli_atmosphere_eq m t g :
  get_castelli_atmosphere Icat m t g
  = if Qltb t 3000 then (Ok None, [Print "No ck04 model below 3000 K"])
    else query Icat "ck04models"
               "Could not find Castelli and Kurucz 2004 atmosphere model for"
               (snap castelli_temp_arr t) m
               (castelli_gravity (snap castelli_grav_arr g)).
Proof.
  unfold get_castelli_atmosphere. destruct (Qltb t 3000); [reflexivity|].
  cbv zeta. fold castelli_temp_arr castelli_grav_arr.
  snap_facts castelli_temp_arr_nonempty t.
  snap_facts castelli_grav_arr_nonempty g.
  run. reflexivity.
Qed.

Lemma get_phoenixv16_atmosphere_eq m t g rebin :
  get_phoenixv16_atmosphere Icat m t g rebin
  = if Qltb t 2300 || Qgtb t 12000 || Qltb g 2.0
    then (Ok None,
          [Print "No phoenixV16 model below 2300 K or above 12000 K, or grav < 2.0"])
    else if Qgtb (Qabs (t - snap phoenixv16_temp_arr t)) 100
            || Qgtb (Qabs (g - snap phoenixv16_grav_arr g)) 0.5
    then (Ok None, [Print "BAD TEMP/GRAV MATCH"])
    else query Icat (if rebin then "phoenix_v16_rebin" else "phoenix_v16")
               "Could not find PHOENIXv16 (Husser+13) atmosphere model for"
               (snap phoenixv16_temp_arr t) m (snap phoenixv16_grav_arr g).
Proof.
  unfold get_phoenixv16_atmosphere.
  destruct (Qltb t 2300 || Qgtb t 12000 || Qltb g 2.0); [reflexivity|].
  cbv zeta. fold phoenixv16_temp_arr phoenixv16_grav_arr.
  snap_facts phoenixv16_temp_arr_nonempty t.
  snap_facts phoenixv16_grav_arr_nonempty g.
  run.
  destruct (Qgtb (Qabs (t - snap phoenixv16_temp_arr t)) 100
            || Qgtb (Qabs (g - snap phoenixv16_grav_arr g)) 0.5); [reflexivity|].
  run. destruct rebin; reflexivity.
Qed.

Lemma get_atlas_phoenix_atmosphere_eq m t g :
  get_atlas_phoenix_atmosphere Icat m t g
  = if Qltb t 5000 || Qgtb t 5500
    then (Ok None, [Print "No ATLAS-PHOENIX merge model outside 5000 - 5500"])
    else if Qgtb (Qabs (t - snap atlas_phoenix_temp_arr t)) 250
            || Qgtb (Qabs (g - snap atlas_phoenix_grav_arr g)) 0.5
    then (Ok None, [Print "BAD TEMP/GRAV MATCH"])
    else query Icat "merged"
               "Could not find ATLAS-PHOENIX merge atmosphere model for"
               (snap atlas_phoenix_temp_arr t) m (snap atlas_phoenix_grav_arr g).
Proof.
  unfold get_atlas_phoenix_atmosphere.
  destruct (Qltb t 5000 || Qgtb t 5500); [reflexivity|].
  cbv zeta. fold atlas_phoenix_temp_arr atlas_phoenix_grav_arr.
  snap_facts atlas_phoenix_temp_arr_nonempty t.
  snap_facts atlas_phoenix_grav_arr_nonempty g.
  run.
  destruct (Qgtb (Qabs (t - snap atlas_phoenix_temp_arr t)) 250
            || Qgtb (Qabs (g - snap atlas_phoenix_grav_arr g)) 0.5); [reflexivity|].
  run. reflexivity.
Qed.

(** Every fetcher either rejects the request with one printed line, or
    ends in the query of its own grid. *)
Lemma fetch_cases f m t g :
  (exists line, fetch Icat f m t g = (Ok None, [Print line]))
  \/ (exists t' g', fetch Icat f m t g
                    = query Icat (family_grid f) (family_message f) t' m g').
Proof.
  destruct f; cbn [fetch family_grid family_message];
    try (right; exists t, g; reflexivity).
  - rewrite get_castelli_atmosphere_eq.
    destruct (Qltb t 3000); [left | right]; eauto.
  - rewrite get_phoenixv16_atmosphere_eq.
    destruct (_ || _); [left; eauto|].
    destruct (_ || _); [left | right]; eauto.
  - rewrite get_atlas_phoenix_atmosphere_eq.
    destruct (_ || _); [left; eauto|].
    destruct (_ || _); [left | right]; eauto.
Qed.

Lemma rejection_calls line grid t m g :
  ~ In (IcatCall grid t m g) (snd (@Ok (option Spectrum) None, [Print line])).
Proof. simpl. intuition discriminate. Qed.

Lemma get_castelli_atmosphere_calls m t g grid t' m' g' :
  In (IcatCall grid t' m' g') (snd (get_castelli_atmosphere Icat m t g)) ->
  grid = "ck04models"%string /\ t' = snap castelli_temp_arr t /\ m' = m
  /\ g' = castelli_gravity (snap castelli_grav_arr g).
Proof.
  rewrite get_castelli_atmosphere_eq. destruct (Qltb t 3000).
  - intros H. now apply rejection_calls in H.
  - apply query_calls.
Qed.

Lemma get_phoenixv16_atmosphere_calls m t g rebin grid t' m' g' :
  In (IcatCall grid t' m' g') (snd (get_phoenixv16_atmosphere Icat m t g rebin)) ->
  grid = (if rebin then "phoenix_v16_rebin" else "phoenix_v16")%string
  /\ t' = snap phoenixv16_temp_arr t /\ m' = m /\ g' = snap phoenixv16_grav_arr g.
Proof.
  rewrite get_phoenixv16_atmosphere_eq.
  destruct (_ || _); [intros H; now apply rejection_calls in H|].
  destruct (_ || _); [intros H; now apply rejection_calls in H|].
  apply query_calls.
Qed.

Lemma get_atlas_phoenix_atmosphere_calls m t g grid t' m' g' :
  In (IcatCall grid t' m' g') (snd (get_atlas_phoenix_atmosphere Icat m t g)) ->
  grid = "merged"%string
  /\ t' = snap atlas_phoenix_temp_arr t /\ m' = m /\ g' = snap atlas_phoenix_grav_arr g.
Proof.
  rewrite get_atlas_phoenix_atmosphere_eq.
  destruct (_ || _); [intros H; now apply rejection_calls in H|].
  destruct (_ || _); [intros H; now apply rejection_calls in H|].
  apply query_calls.
Qed.

(** *** The resolver *)

(** C1. For every metallicity and gravity, [get_merged_atmosphere] looks
    at the temperature alone and hands (metallicity, temperature, gravity)
    unchanged to one fetcher: PHOENIX-v16 below 5000, the ATLAS/PHOENIX
    merge strictly between 5000 and 5500, Castelli-Kurucz above 5500.  It
    snaps nothing itself, and the only grids it can reach are those of
    these three fetchers, never a CMFGEN one. *)
Theorem get_merged_atmosphere_dispatch m t g :
  (t < 5000 ->
   get_merged_atmosphere Icat m t g
   = (print "Phoenix Model Atmosphere Used" ;;
      get_phoenixv16_atmosphere Icat m t g true))
  /\ (5000 < t /\ t < 5500 ->
      get_merged_atmosphere Icat m t g
      = (print "ATLAS and PHOENIX merged atmosphere used" ;;
         get_atlas_phoenix_atmosphere Icat m t g))
  /\ (5500 < t ->
      get_merged_atmosphere Icat m t g
      = (print "ATLAS atmosphere used" ;;
         get_castelli_atmosphere Icat m t g))
  /\ (forall grid t' m' g',
         In (IcatCall grid t' m' g') (snd (get_merged_atmosphere Icat m t g)) ->
         (grid = "phoenix_v16_rebin" \/ grid = "merged" \/ grid = "ck04models")%string
         /\ grid <> "cmfgenF15_rot"%string /\ grid <> "cmfgenF15_noRot"%string).
Proof.
  assert (Hgrids : forall grid : string,
             (grid = "phoenix_v16_rebin" \/ grid = "merged" \/ grid = "ck04models")%string ->
             (grid = "phoenix_v16_rebin" \/ grid = "merged" \/ grid = "ck04models")%string
             /\ grid <> "cmfgenF15_rot"%string /\ grid <> "cmfgenF15_noRot"%string).
  { intros grid H. split; [exact H|].
    destruct H as [->|[->| ->]]; split; discriminate. }
  unfold get_merged_atmosphere, Qgtb.
  destruct (Qltb_spec t 5000) as [H1|H1].
  { split; [reflexivity|]. split; [intros; exfalso; lra|].
    split; [intros; exfalso; lra|]. intros grid t' m' g' H. apply Hgrids.
    rewrite bind_print in H. destruct H as [H|H]; [discriminate|].
    apply get_phoenixv16_atmosphere_calls in H. destruct H as (-> & _). auto. }
  destruct (Qltb_spec 5000 t) as [H2|H2], (Qltb_spec t 5500) as [H3|H3];
    cbn [andb].
  - split; [intros; exfalso; lra|]. split; [reflexivity|].
    split; [intros; exfalso; lra|]. intros grid t' m' g' H. apply Hgrids.
    rewrite bind_print in H. destruct H as [H|H]; [discriminate|].
    apply get_atlas_phoenix_atmosphere_calls in H. destruct H as (-> & _). auto.
  - destruct (Qltb_spec 5500 t) as [H4|H4].
    + split; [intros; exfalso; lra|]. split; [intros; exfalso; lra|].
      split; [reflexivity|]. intros grid t' m' g' H. apply Hgrids.
      rewrite bind_print in H. destruct H as [H|H]; [discriminate|].
      apply get_castelli_atmosphere_calls in H. destruct H as (-> & _). auto.
    + destruct (Qltb_spec 20000 t) as [H5|H5]; [exfalso; lra|].
      split; [intros; exfalso; lra|]. split; [intros; exfalso; lra|].
      split; [intros; exfalso; lra|]. intros grid t' m' g' [].
  - destruct (Qltb_spec 5500 t) as [H4|H4]; [exfalso; lra|].
    destruct (Qltb_spec 20000 t) as [H5|H5]; [exfalso; lra|].
    split; [intros; exfalso; lra|]. split; [intros; exfalso; lra|].
    split; [intros; exfalso; lra|]. intros grid t' m' g' [].
  - exfalso; lra.
Qed.

(** C2. With a temperature equal to 5000 no test of the resolver holds:
    it returns [None], prints nothing, and calls neither a fetcher nor the
    interpolator. *)
Theorem get_merged_atmosphere_5000 m t g :
  t == 5000 -> get_merged_atmosphere Icat m t g = (Ok None, []).
Proof.
  intros E. unfold get_merged_atmosphere, Qgtb.
  rewrite !(Qeq_Qltb_l t 5000 _ E), !(Qeq_Qltb_r _ t 5000 E). reflexivity.
Qed.

(** C10. With a temperature equal to 5500 no test of the resolver holds
    either: neither [5000 < t < 5500] nor [t > 5500]; it returns [None],
    prints nothing, and calls neither a fetcher nor the interpolator. *)
Theorem get_merged_atmosphere_5500 m t g :
  t == 5500 -> get_merged_atmosphere Icat m t g = (Ok None, []).
Proof.
  intros E. unfold get_merged_atmosphere, Qgtb.
  rewrite !(Qeq_Qltb_l t 5500 _ E), !(Qeq_Qltb_r _ t 5500 E). reflexivity.
Qed.

(** *** Distances of a snap *)

Lemma within_In lo hi arr n : within lo hi arr = true -> In n arr -> lo <= n /\ n <= hi.
Proof.
  unfold within. rewrite forallb_forall. intros H Hin.
  apply H, andb_prop in Hin. destruct Hin as [H1 H2].
  split; now apply Qle_bool_iff.
Qed.

Lemma snap_In arr x : arr <> [] -> In (snap arr x) arr.
Proof. intros Hne. eapply nearest_In, snap_nearest, Hne. Qed.

Lemma snap_near arr x d :
  arr <> [] -> covered d arr = true ->
  hd 0 arr - d <= x -> x <= last arr 0 + d ->
  Qabs (x - snap arr x) <= d.
Proof.
  intros Hne Hc Hlo Hhi. destruct arr as [|a l]; [congruence|].
  destruct (cover d l a Hc x Hlo Hhi) as (n & Hn & Hd).
  rewrite Qabs_Qminus. eapply Qle_trans; [|exact Hd].
  eapply nearest_le; [apply snap_nearest; discriminate | exact Hn].
Qed.

Lemma snap_far arr x lo hi d :
  arr <> [] -> within lo hi arr = true -> hi + d < x -> d < Qabs (x - snap arr x).
Proof.
  intros Hne Hw Hx.
  destruct (within_In _ _ _ _ Hw (snap_In arr x Hne)) as [_ Hhi].
  apply Qlt_le_trans with (x - snap arr x); [lra | apply Qle_Qabs].
Qed.

Lemma snap_atlas_phoenix_temp t : snap atlas_phoenix_temp_arr t = 5250.
Proof.
  destruct (snap_In atlas_phoenix_temp_arr t atlas_phoenix_temp_arr_nonempty)
    as [E|[]]. now symmetry.
Qed.

(** C3. Each snapping fetcher rejects a request outside its domain before
    it queries the interpolator, and returns [None] instead of raising:
    PHOENIX-v16 when temperature < 2300 or gravity < 2.0, Castelli-Kurucz
    when temperature < 3000, the ATLAS/PHOENIX merge when the temperature
    is outside [5000, 5500].  The trace of a rejected call is the one
    printed line.  Both ends of [5000, 5500] are accepted by the merge
    fetcher: there (with a gravity within 0.5 of its nodes) it queries the
    interpolator at 5250. *)
Theorem fetchers_reject_out_of_domain m t g rebin :
  (t < 2300 \/ g < 2.0 ->
   get_phoenixv16_atmosphere Icat m t g rebin
   = (Ok None,
      [Print "No phoenixV16 model below 2300 K or above 12000 K, or grav < 2.0"]))
  /\ (t < 3000 ->
      get_castelli_atmosphere Icat m t g
      = (Ok None, [Print "No ck04 model below 3000 K"]))
  /\ (t < 5000 \/ 5500 < t ->
      get_atlas_phoenix_atmosphere Icat m t g
      = (Ok None, [Print "No ATLAS-PHOENIX merge model outside 5000 - 5500"]))
  /\ (5000 <= t /\ t <= 5500 -> - 0.5 <= g /\ g <= 5.5 ->
      get_atlas_phoenix_atmosphere Icat m t g
      = query Icat "merged" "Could not find ATLAS-PHOENIX merge atmosphere model for"
              5250 m (snap atlas_phoenix_grav_arr g)).
Proof.
  split; [|split; [|split]].
  - intros H. rewrite get_phoenixv16_atmosphere_eq. unfold Qgtb.
    destruct (Qltb_spec t 2300), (Qltb_spec 12000 t), (Qltb_spec g 2.0);
      try reflexivity.
    exfalso. destruct H; auto.
  - intros H. rewrite get_castelli_atmosphere_eq.
    destruct (Qltb_spec t 3000); [reflexivity | contradiction].
  - intros H. rewrite get_atlas_phoenix_atmosphere_eq. unfold Qgtb.
    destruct (Qltb_spec t 5000), (Qltb_spec 5500 t); try reflexivity.
    exfalso. destruct H; auto.
  - intros [Ht1 Ht2] [Hg1 Hg2]. rewrite get_atlas_phoenix_atmosphere_eq.
    rewrite snap_atlas_phoenix_temp. unfold Qgtb.
    destruct (Qltb_spec t 5000); [exfalso; lra|].
    destruct (Qltb_spec 5500 t); [exfalso; lra|]. cbn [orb].
    destruct (Qltb_spec 250 (Qabs (t - 5250))) as [Hd|_].
    { exfalso. apply (Qlt_not_le _ _ Hd). apply Qabs_Qle_condition. lra. }
    destruct (Qltb_spec 0.5 (Qabs (g - snap atlas_phoenix_grav_arr g))) as [Hd|_];
      [|reflexivity].
    exfalso. apply (Qlt_not_le _ _ Hd).
    apply snap_near.
    + apply atlas_phoenix_grav_arr_nonempty.
    + vm_compute. reflexivity.
    + replace (hd 0 atlas_phoenix_grav_arr) with 0 by (vm_compute; reflexivity). lra.
    + replace (last atlas_phoenix_grav_arr 0) with 5 by (vm_compute; reflexivity). lra.
Qed.

(** *** The tolerance on the snap distance *)

Lemma Qgtb_orb_true a x b y :
  Qgtb a x || Qgtb b y = true <-> x < a \/ y < b.
Proof. rewrite orb_true_iff, !Qgtb_true. tauto. Qed.

Lemma Qgtb_orb_false a x b y :
  Qgtb a x || Qgtb b y = false <-> a <= x /\ b <= y.
Proof. rewrite orb_false_iff, !Qgtb_false. tauto. Qed.

Lemma phoenixv16_in_domain t g :
  2300 <= t /\ t <= 12000 -> 2.0 <= g ->
  Qltb t 2300 || Qgtb t 12000 || Qltb g 2.0 = false.
Proof.
  intros [H1 H2] H3. unfold Qgtb.
  destruct (Qltb_spec t 2300), (Qltb_spec 12000 t), (Qltb_spec g 2.0);
    try reflexivity; exfalso; lra.
Qed.

Lemma atlas_phoenix_in_domain t :
  5000 <= t /\ t <= 5500 -> Qltb t 5000 || Qgtb t 5500 = false.
Proof.
  intros [H1 H2]. unfold Qgtb.
  destruct (Qltb_spec t 5000), (Qltb_spec 5500 t); try reflexivity; exfalso; lra.
Qed.

(** In its domain the PHOENIX-v16 temperature is never farther than 100
    from a node, and the merge temperature never farther than 250 from
    5250: only the gravity axis can fail these two tolerances. *)
Lemma phoenixv16_temp_near t :
  2300 <= t /\ t <= 12000 -> Qabs (t - snap phoenixv16_temp_arr t) <= 100.
Proof.
  intros [H1 H2]. apply snap_near.
  - apply phoenixv16_temp_arr_nonempty.
  - vm_compute. reflexivity.
  - replace (hd 0 phoenixv16_temp_arr) with 2300 by (vm_compute; reflexivity). lra.
  - replace (last phoenixv16_temp_arr 0) with 12000 by (vm_compute; reflexivity). lra.
Qed.

Lemma atlas_phoenix_temp_near t :
  5000 <= t /\ t <= 5500 -> Qabs (t - snap atlas_phoenix_temp_arr t) <= 250.
Proof.
  intros [H1 H2]. rewrite snap_atlas_phoenix_temp. apply Qabs_Qle_condition. lra.
Qed.

(** C4. In the two families with a maximum node distance, a request of
    the domain whose snap distance exceeds the tolerance on either axis
    (PHOENIX-v16: 100 in temperature, 0.5 in gravity; ATLAS/PHOENIX merge:
    250, 0.5) is answered [None] with the line "BAD TEMP/GRAV MATCH" and no
    query; a request within both tolerances goes on to the interpolator at
    the snapped point.  In particular Castelli-Kurucz at (21000, 4.9)
    queries (21000, 5.0), and PHOENIX-v16 at (2350, 2.0) queries
    (2300, 2.0), the distance 50 being within 100. *)
Theorem snap_distance_tolerance m t g rebin :
  (2300 <= t /\ t <= 12000 -> 2.0 <= g ->
   (100 < Qabs (t - snap phoenixv16_temp_arr t)
    \/ 0.5 < Qabs (g - snap phoenixv16_grav_arr g) ->
    get_phoenixv16_atmosphere Icat m t g rebin
    = (Ok None, [Print "BAD TEMP/GRAV MATCH"]))
   /\ (Qabs (t - snap phoenixv16_temp_arr t) <= 100
       /\ Qabs (g - snap phoenixv16_grav_arr g) <= 0.5 ->
       get_phoenixv16_atmosphere Icat m t g rebin
       = query Icat (if rebin then "phoenix_v16_rebin" else "phoenix_v16")
               "Could not find PHOENIXv16 (Husser+13) atmosphere model for"
               (snap phoenixv16_temp_arr t) m (snap phoenixv16_grav_arr g)))
  /\ (5000 <= t /\ t <= 5500 ->
      (250 < Qabs (t - snap atlas_phoenix_temp_arr t)
       \/ 0.5 < Qabs (g - snap atlas_phoenix_grav_arr g) ->
       get_atlas_phoenix_atmosphere Icat m t g
       = (Ok None, [Print "BAD TEMP/GRAV MATCH"]))
      /\ (Qabs (t - snap atlas_phoenix_temp_arr t) <= 250
          /\ Qabs (g - snap atlas_phoenix_grav_arr g) <= 0.5 ->
          get_atlas_phoenix_atmosphere Icat m t g
          = query Icat "merged"
                  "Could not find ATLAS-PHOENIX merge atmosphere model for"
                  (snap atlas_phoenix_temp_arr t) m (snap atlas_phoenix_grav_arr g)))
  /\ get_castelli_atmosphere Icat m 21000 4.9
     = query Icat "ck04models"
             "Could not find Castelli and Kurucz 2004 atmosphere model for"
             21000 m 5
  /\ get_phoenixv16_atmosphere Icat m 2350 2.0 rebin
     = query Icat (if rebin then "phoenix_v16_rebin" else "phoenix_v16")
             "Could not find PHOENIXv16 (Husser+13) atmosphere model for"
             2300 m 2
  /\ Qabs (2350 - snap phoenixv16_temp_arr 2350) == 50.
Proof.
  split; [|split; [|split; [|split]]].
  - intros Ht Hg. rewrite get_phoenixv16_atmosphere_eq.
    rewrite (phoenixv16_in_domain t g Ht Hg). split; intros H.
    + apply Qgtb_orb_true in H. now rewrite H.
    + apply Qgtb_orb_false in H. now rewrite H.
  - intros Ht. rewrite get_atlas_phoenix_atmosphere_eq.
    rewrite (atlas_phoenix_in_domain t Ht). split; intros H.
    + apply Qgtb_orb_true in H. now rewrite H.
    + apply Qgtb_orb_false in H. now rewrite H.
  - rewrite get_castelli_atmosphere_eq.
    replace (snap castelli_temp_arr 21000) with 21000 by (vm_compute; reflexivity).
    replace (castelli_gravity (snap castelli_grav_arr 4.9)) with 5
      by (vm_compute; reflexivity).
    reflexivity.
  - rewrite get_phoenixv16_atmosphere_eq.
    replace (snap phoenixv16_temp_arr 2350) with 2300 by (vm_compute; reflexivity).
    replace (snap phoenixv16_grav_arr 2.0) with 2 by (vm_compute; reflexivity).
    reflexivity.
  - vm_compute. reflexivity.
Qed.

Lemma phoenixv16_grav_near g :
  2.0 <= g /\ g <= 6.5 -> Qabs (g - snap phoenixv16_grav_arr g) <= 0.5.
Proof.
  intros [H1 H2]. apply snap_near.
  - apply phoenixv16_grav_arr_nonempty.
  - vm_compute. reflexivity.
  - replace (hd 0 phoenixv16_grav_arr) with 2 by (vm_compute; reflexivity). lra.
  - replace (last phoenixv16_grav_arr 0) with 6 by (vm_compute; reflexivity). lra.
Qed.

Lemma phoenixv16_grav_far g :
  6.5 < g -> 0.5 < Qabs (g - snap phoenixv16_grav_arr g).
Proof.
  intros H. apply snap_far with (lo := 2) (hi := 6).
  - apply phoenixv16_grav_arr_nonempty.
  - vm_compute. reflexivity.
  - lra.
Qed.

(** *** Nearest node, axis by axis *)


(** C6. Every gravity the Castelli-Kurucz fetcher passes to the
    interpolator is at least 2.5, and it is exactly 2.5 whenever the
    gravity that snapping produced is below 2.5. *)
Theorem castelli_gravity_floor m t g grid t' m' g' :
  In (IcatCall grid t' m' g') (snd (get_castelli_atmosphere Icat m t g)) ->
  2.5 <= g' /\ (snap castelli_grav_arr g < 2.5 -> g' = 2.5).
Proof.
  intros H. apply get_castelli_atmosphere_calls in H.
  destruct H as (_ & _ & _ & ->). unfold castelli_gravity.
  destruct (Qltb_spec (snap castelli_grav_arr g) 2.5) as [Hlt|Hge].
  - split; [apply Qle_refl | reflexivity].
  - split; [now apply Qnot_lt_le | contradiction].
Qed.

(** *** Requests on the grid *)

Lemma castelli_temp_arr_within : within 3000 50000 castelli_temp_arr = true.
Proof. vm_compute. reflexivity. Qed.
Lemma phoenixv16_temp_arr_within : within 2300 12000 phoenixv16_temp_arr = true.
Proof. vm_compute. reflexivity. Qed.
Lemma phoenixv16_grav_arr_within : within 2 6 phoenixv16_grav_arr = true.
Proof. vm_compute. reflexivity. Qed.




(** *** The check of the spectrum, and the metallicity *)

(** C8, corrected.  When a fetcher has queried the interpolator and every
    flux value of the spectrum is zero, it prints the diagnostic of its
    family -- the family's line, then the temperature, the metallicity and
    the gravity it queried with, which for a snapping fetcher are the
    snapped ones and not those of the request -- and still returns that
    very spectrum; with a flux value that is not zero it prints nothing.
    A fetcher that does not snap queries with the request itself, so that
    its diagnostic shows the requested values. *)
Theorem degenerate_spectrum_reported_and_returned f m t g grid t' m' g' :
  In (IcatCall grid t' m' g') (snd (fetch Icat f m t g)) ->
  fst (fetch Icat f m t g) = Ok (Some (Icat grid t' m' g'))
  /\ (Forall (fun v => v == 0) (flux (Icat grid t' m' g')) ->
      snd (fetch Icat f m t g)
      = IcatCall grid t' m' g' :: diagnostic (family_message f) t' m' g')
  /\ (Exists (fun v => ~ v == 0) (flux (Icat grid t' m' g')) ->
      snd (fetch Icat f m t g) = [IcatCall grid t' m' g'])
  /\ (snapping f = false -> t' = t /\ g' = g).
Proof.
  intros H.
  assert (Hplain : snapping f = false ->
            fetch Icat f m t g = query Icat (family_grid f) (family_message f) t m g).
  { destruct f; try discriminate; reflexivity. }
  destruct (fetch_cases f m t g) as [(line & E)|(t1 & g1 & E)].
  { rewrite E in H. now apply rejection_calls in H. }
  rewrite E in H |- *. apply query_calls in H. destruct H as (-> & -> & -> & ->).
  rewrite query_eq. cbn [fst snd]. repeat apply conj.
  - reflexivity.
  - intros Hz. apply all_zero_Forall in Hz. now rewrite Hz.
  - intros Hnz. apply all_zero_Exists in Hnz. now rewrite Hnz.
  - intros Hs. rewrite (Hplain Hs), !query_eq in E. now inversion E.
Qed.

(** C9. The metallicity a fetcher receives is the metallicity of every
    query it makes of the interpolator; and a fetcher that does not snap
    queries its grid with the whole request unchanged. *)
Theorem metallicity_forwarded_unchanged f m t g :
  (forall grid t' m' g',
      In (IcatCall grid t' m' g') (snd (fetch Icat f m t g)) ->
      m' = m /\ grid = family_grid f)
  /\ (snapping f = false ->
      fetch Icat f m t g = query Icat (family_grid f) (family_message f) t m g).
Proof.
  split.
  - intros grid t' m' g' H.
    destruct (fetch_cases f m t g) as [(line & E)|(t1 & g1 & E)]; rewrite E in H.
    + now apply rejection_calls in H.
    + apply query_calls in H. tauto.
  - destruct f; try discriminate; reflexivity.
Qed.

End Fetchers.

(** * The theorems at concrete requests

    The fetchers are run on [lit_Icat] and [dark_Icat]; every hypothesis is
    discharged by evaluation. *)

Ltac find_in := vm_compute; repeat first [ left; reflexivity | right ].

Lemma get_merged_atmosphere_dispatch_witness :
  (4999 < 5000
   /\ get_merged_atmosphere lit_Icat 0 4999 4
      = (print "Phoenix Model Atmosphere Used" ;;
         get_phoenixv16_atmosphere lit_Icat 0 4999 4 true))
  /\ ((5000 < 5200 /\ 5200 < 5500)
      /\ get_merged_atmosphere lit_Icat 0 5200 4
         = (print "ATLAS and PHOENIX merged atmosphere used" ;;
            get_atlas_phoenix_atmosphere lit_Icat 0 5200 4))
  /\ (5500 < 6000
      /\ get_merged_atmosphere lit_Icat 0 6000 4
         = (print "ATLAS atmosphere used" ;;
            get_castelli_atmosphere lit_Icat 0 6000 4))
  /\ (In (IcatCall "ck04models" 6000 0 4) (snd (get_merged_atmosphere lit_Icat 0 6000 4))
      /\ "ck04models"%string <> "cmfgenF15_rot"%string).
Proof.
  split; [|split; [|split]].
  - split; [reflexivity|].
    apply (proj1 (get_merged_atmosphere_dispatch lit_Icat 0 4999 4)). reflexivity.
  - split; [split; reflexivity|].
    apply (proj1 (proj2 (get_merged_atmosphere_dispatch lit_Icat 0 5200 4))).
    split; reflexivity.
  - split; [reflexivity|].
    apply (proj1 (proj2 (proj2 (get_merged_atmosphere_dispatch lit_Icat 0 6000 4)))).
    reflexivity.
  - assert (H : In (IcatCall "ck04models" 6000 0 4)
                   (snd (get_merged_atmosphere lit_Icat 0 6000 4))) by find_in.
    split; [exact H|].
    apply (proj2 (proj2 (proj2 (get_merged_atmosphere_dispatch lit_Icat 0 6000 4)))
             _ _ _ _ H).
Defined.

Lemma get_merged_atmosphere_5000_witness :
  5000 == 5000 /\ get_merged_atmosphere lit_Icat 0 5000 4 = (Ok None, []).
Proof.
  split; [reflexivity|]. apply get_merged_atmosphere_5000. reflexivity.
Defined.

Lemma get_merged_atmosphere_5500_witness :
  5500 == 5500 /\ get_merged_atmosphere lit_Icat 0 5500 4 = (Ok None, []).
Proof.
  split; [reflexivity|]. apply get_merged_atmosphere_5500. reflexivity.
Defined.

Lemma fetchers_reject_out_of_domain_witness :
  ((2299 < 2300 \/ 4 < 2.0)
   /\ get_phoenixv16_atmosphere lit_Icat 0 2299 4 true
      = (Ok None,
         [Print "No phoenixV16 model below 2300 K or above 12000 K, or grav < 2.0"]))
  /\ ((4000 < 2300 \/ 1.9 < 2.0)
      /\ get_phoenixv16_atmosphere lit_Icat 0 4000 1.9 true
         = (Ok None,
            [Print "No phoenixV16 model below 2300 K or above 12000 K, or grav < 2.0"]))
  /\ (2999 < 3000
      /\ get_castelli_atmosphere lit_Icat 0 2999 4
         = (Ok None, [Print "No ck04 model below 3000 K"]))
  /\ ((4999 < 5000 \/ 5500 < 4999)
      /\ get_atlas_phoenix_atmosphere lit_Icat 0 4999 4
         = (Ok None, [Print "No ATLAS-PHOENIX merge model outside 5000 - 5500"]))
  /\ ((5000 <= 5000 /\ 5000 <= 5500) /\ (- 0.5 <= 4 /\ 4 <= 5.5)
      /\ get_atlas_phoenix_atmosphere lit_Icat 0 5000 4
         = query lit_Icat "merged"
                 "Could not find ATLAS-PHOENIX merge atmosphere model for"
                 5250 0 (snap atlas_phoenix_grav_arr 4))
  /\ ((5000 <= 5500 /\ 5500 <= 5500) /\ (- 0.5 <= 4 /\ 4 <= 5.5)
      /\ get_atlas_phoenix_atmosphere lit_Icat 0 5500 4
         = query lit_Icat "merged"
                 "Could not find ATLAS-PHOENIX merge atmosphere model for"
                 5250 0 (snap atlas_phoenix_grav_arr 4)).
Proof.
  split; [|split; [|split; [|split; [|split]]]].
  - split; [left; reflexivity|].
    apply (proj1 (fetchers_reject_out_of_domain lit_Icat 0 2299 4 true)).
    left. reflexivity.
  - split; [right; reflexivity|].
    apply (proj1 (fetchers_reject_out_of_domain lit_Icat 0 4000 1.9 true)).
    right. reflexivity.
  - split; [reflexivity|].
    apply (proj1 (proj2 (fetchers_reject_out_of_domain lit_Icat 0 2999 4 true))).
    reflexivity.
  - split; [left; reflexivity|].
    apply (proj1 (proj2 (proj2 (fetchers_reject_out_of_domain lit_Icat 0 4999 4 true)))).
    left. reflexivity.
  - assert (Ht : 5000 <= 5000 /\ 5000 <= 5500) by (split; vm_compute; discriminate).
    assert (Hg : - 0.5 <= 4 /\ 4 <= 5.5) by (split; vm_compute; discriminate).
    split; [exact Ht|]. split; [exact Hg|].
    exact (proj2 (proj2 (proj2 (fetchers_reject_out_of_domain lit_Icat 0 5000 4 true)))
             Ht Hg).
  - assert (Ht : 5000 <= 5500 /\ 5500 <= 5500) by (split; vm_compute; discriminate).
    assert (Hg : - 0.5 <= 4 /\ 4 <= 5.5) by (split; vm_compute; discriminate).
    split; [exact Ht|]. split; [exact Hg|].
    exact (proj2 (proj2 (proj2 (fetchers_reject_out_of_domain lit_Icat 0 5500 4 true)))
             Ht Hg).
Defined.

Lemma snap_distance_tolerance_witness :
  ((2300 <= 4000 /\ 4000 <= 12000) /\ 2.0 <= 7
   /\ (100 < Qabs (4000 - snap phoenixv16_temp_arr 4000)
       \/ 0.5 < Qabs (7 - snap phoenixv16_grav_arr 7))
   /\ get_phoenixv16_atmosphere lit_Icat 0 4000 7 true
      = (Ok None, [Print "BAD TEMP/GRAV MATCH"]))
  /\ ((2300 <= 4040 /\ 4040 <= 12000) /\ 2.0 <= 4.2
      /\ (Qabs (4040 - snap phoenixv16_temp_arr 4040) <= 100
          /\ Qabs (4.2 - snap phoenixv16_grav_arr 4.2) <= 0.5)
      /\ get_phoenixv16_atmosphere lit_Icat 0 4040 4.2 true
         = query lit_Icat "phoenix_v16_rebin"
                 "Could not find PHOENIXv16 (Husser+13) atmosphere model for"
                 (snap phoenixv16_temp_arr 4040) 0 (snap phoenixv16_grav_arr 4.2))
  /\ ((5000 <= 5100 /\ 5100 <= 5500)
      /\ (250 < Qabs (5100 - snap atlas_phoenix_temp_arr 5100)
          \/ 0.5 < Qabs (6 - snap atlas_phoenix_grav_arr 6))
      /\ get_atlas_phoenix_atmosphere lit_Icat 0 5100 6
         = (Ok None, [Print "BAD TEMP/GRAV MATCH"]))
  /\ ((5000 <= 5100 /\ 5100 <= 5500)
      /\ (Qabs (5100 - snap atlas_phoenix_temp_arr 5100) <= 250
          /\ Qabs (4.2 - snap atlas_phoenix_grav_arr 4.2) <= 0.5)
      /\ get_atlas_phoenix_atmosphere lit_Icat 0 5100 4.2
         = query lit_Icat "merged"
                 "Could not find ATLAS-PHOENIX merge atmosphere model for"
                 (snap atlas_phoenix_temp_arr 5100) 0 (snap atlas_phoenix_grav_arr 4.2)).
Proof.
  split; [|split; [|split]].
  - assert (Ht : 2300 <= 4000 /\ 4000 <= 12000) by (split; vm_compute; discriminate).
    assert (Hg : 2.0 <= 7) by (vm_compute; discriminate).
    assert (Hd : 100 < Qabs (4000 - snap phoenixv16_temp_arr 4000)
                 \/ 0.5 < Qabs (7 - snap phoenixv16_grav_arr 7))
      by (right; vm_compute; reflexivity).
    split; [exact Ht|]. split; [exact Hg|]. split; [exact Hd|].
    exact (proj1 (proj1 (snap_distance_tolerance lit_Icat 0 4000 7 true) Ht Hg) Hd).
  - assert (Ht : 2300 <= 4040 /\ 4040 <= 12000) by (split; vm_compute; discriminate).
    assert (Hg : 2.0 <= 4.2) by (vm_compute; discriminate).
    assert (Hd : Qabs (4040 - snap phoenixv16_temp_arr 4040) <= 100
                 /\ Qabs (4.2 - snap phoenixv16_grav_arr 4.2) <= 0.5)
      by (split; vm_compute; discriminate).
    split; [exact Ht|]. split; [exact Hg|]. split; [exact Hd|].
    exact (proj2 (proj1 (snap_distance_tolerance lit_Icat 0 4040 4.2 true) Ht Hg) Hd).
  - assert (Ht : 5000 <= 5100 /\ 5100 <= 5500) by (split; vm_compute; discriminate).
    assert (Hd : 250 < Qabs (5100 - snap atlas_phoenix_temp_arr 5100)
                 \/ 0.5 < Qabs (6 - snap atlas_phoenix_grav_arr 6))
      by (right; vm_compute; reflexivity).
    split; [exact Ht|]. split; [exact Hd|].
    exact (proj1 (proj1 (proj2 (snap_distance_tolerance lit_Icat 0 5100 6 true)) Ht) Hd).
  - assert (Ht : 5000 <= 5100 /\ 5100 <= 5500) by (split; vm_compute; discriminate).
    assert (Hd : Qabs (5100 - snap atlas_phoenix_temp_arr 5100) <= 250
                 /\ Qabs (4.2 - snap atlas_phoenix_grav_arr 4.2) <= 0.5)
      by (split; vm_compute; discriminate).
    split; [exact Ht|]. split; [exact Hd|].
    exact (proj2 (proj1 (proj2 (snap_distance_tolerance lit_Icat 0 5100 4.2 true)) Ht) Hd).
Defined.


Lemma castelli_gravity_floor_witness :
  In (IcatCall "ck04models" 21000 0 2.5) (snd (get_castelli_atmosphere lit_Icat 0 21000 2.2))
  /\ snap castelli_grav_arr 2.2 < 2.5
  /\ 2.5 <= 2.5 /\ 2.5 = 2.5.
Proof.
  assert (H : In (IcatCall "ck04models" 21000 0 2.5)
                 (snd (get_castelli_atmosphere lit_Icat 0 21000 2.2))) by find_in.
  assert (Hs : snap castelli_grav_arr 2.2 < 2.5) by (vm_compute; reflexivity).
  split; [exact H|]. split; [exact Hs|].
  destruct (castelli_gravity_floor lit_Icat 0 21000 2.2 _ _ _ _ H) as [Hle Heq].
  split; [exact Hle | exact (Heq Hs)].
Defined.


Lemma degenerate_spectrum_reported_and_returned_witness :
  (In (IcatCall "ck04models" 21000 0 4) (snd (fetch dark_Icat Castelli 0 21100 4.2))
   /\ Forall (fun v => v == 0) (flux (dark_Icat "ck04models" 21000 0 4))
   /\ fst (fetch dark_Icat Castelli 0 21100 4.2)
      = Ok (Some (dark_Icat "ck04models" 21000 0 4))
   /\ snd (fetch dark_Icat Castelli 0 21100 4.2)
      = IcatCall "ck04models" 21000 0 4
          :: diagnostic (family_message Castelli) 21000 0 4)
  /\ (In (IcatCall "ck04models" 21000 0 4) (snd (fetch lit_Icat Castelli 0 21100 4.2))
      /\ Exists (fun v => ~ v == 0) (flux (lit_Icat "ck04models" 21000 0 4))
      /\ fst (fetch lit_Icat Castelli 0 21100 4.2)
         = Ok (Some (lit_Icat "ck04models" 21000 0 4))
      /\ snd (fetch lit_Icat Castelli 0 21100 4.2) = [IcatCall "ck04models" 21000 0 4])
  /\ (In (IcatCall "k93models" 21100 0 4.2) (snd (fetch dark_Icat Kurucz 0 21100 4.2))
      /\ snapping Kurucz = false
      /\ snd (fetch dark_Icat Kurucz 0 21100 4.2)
         = IcatCall "k93models" 21100 0 4.2
             :: diagnostic (family_message Kurucz) 21100 0 4.2).
Proof.
  split; [|split].
  - assert (H : In (IcatCall "ck04models" 21000 0 4)
                   (snd (fetch dark_Icat Castelli 0 21100 4.2))) by find_in.
    assert (Hz : Forall (fun v => v == 0) (flux (dark_Icat "ck04models" 21000 0 4)))
      by (repeat constructor).
    destruct (degenerate_spectrum_reported_and_returned dark_Icat Castelli _ _ _ _ _ _ _ H)
      as (Hfst & Hdark & _ & _).
    split; [exact H|]. split; [exact Hz|]. split; [exact Hfst | exact (Hdark Hz)].
  - assert (H : In (IcatCall "ck04models" 21000 0 4)
                   (snd (fetch lit_Icat Castelli 0 21100 4.2))) by find_in.
    assert (Hz : Exists (fun v => ~ v == 0) (flux (lit_Icat "ck04models" 21000 0 4)))
      by (apply Exists_cons_tl, Exists_cons_hd; discriminate).
    destruct (degenerate_spectrum_reported_and_returned lit_Icat Castelli _ _ _ _ _ _ _ H)
      as (Hfst & _ & Hlit & _).
    split; [exact H|]. split; [exact Hz|]. split; [exact Hfst | exact (Hlit Hz)].
  - assert (H : In (IcatCall "k93models" 21100 0 4.2)
                   (snd (fetch dark_Icat Kurucz 0 21100 4.2))) by (left; reflexivity).
    assert (Hz : Forall (fun v => v == 0) (flux (dark_Icat "k93models" 21100 0 4.2)))
      by (repeat constructor).
    destruct (degenerate_spectrum_reported_and_returned dark_Icat Kurucz _ _ _ _ _ _ _ H)
      as (_ & Hdark & _ & _).
    split; [exact H|]. split; [reflexivity | exact (Hdark Hz)].
Defined.

Lemma metallicity_forwarded_unchanged_witness :
  (In (IcatCall "ck04models" 21000 (-1.5) 4)
      (snd (fetch lit_Icat Castelli (-1.5) 21100 4.2))
   /\ -1.5 = -1.5 /\ "ck04models"%string = family_grid Castelli)
  /\ (snapping Phoenix = false
      /\ fetch lit_Icat Phoenix (-1.5) 4000 4.2
         = query lit_Icat (family_grid Phoenix) (family_message Phoenix) 4000 (-1.5) 4.2).
Proof.
  split.
  - assert (H : In (IcatCall "ck04models" 21000 (-1.5) 4)
                   (snd (fetch lit_Icat Castelli (-1.5) 21100 4.2))) by find_in.
    split; [exact H|].
    exact (proj1 (metallicity_forwarded_unchanged lit_Icat Castelli (-1.5) 21100 4.2)
             _ _ _ _ H).
  - split; [reflexivity|].
    exact (proj2 (metallicity_forwarded_unchanged lit_Icat Phoenix (-1.5) 4000 4.2)
             eq_refl).
Defined.


(** ** Requests at which the values differ from the requested ones *)


(** C8, off the grid.  On the request (21100, 0, 4.2) the Castelli-Kurucz
    fetcher queries (21000, 0, 4); on an all-zero spectrum its diagnostic
    shows 21000 and 4, and neither 21100 nor 4.2 is printed. *)
Lemma diagnostic_shows_queried_values :
  snd (fetch dark_Icat Castelli 0 21100 4.2)
  = IcatCall "ck04models" 21000 0 4
    :: diagnostic (family_message Castelli) 21000 0 4
  /\ ~ In (PrintFmt "  temperature = %d" 21100)
          (snd (fetch dark_Icat Castelli 0 21100 4.2))
  /\ ~ In (PrintFmt "  log gravity = %.1f" 4.2)
          (snd (fetch dark_Icat Castelli 0 21100 4.2)).
Proof.
  split; [vm_compute; reflexivity|].
  split; vm_compute; intuition discriminate.
Qed.

(** Beyond the bound the rounded distances to all nodes coincide: a
    temperature of 10^21, or an infinite one, is queried at the first node,
    3000; a gravity of 10^17 at the first node, 2.0, raised to 2.5. *)
Lemma castelli_first_node_far_beyond_bound :
  Binary64.get_castelli_atmosphere 0 1e21 4
  = Ok (Some (3000%float, 0%float, 4%float))
  /\ Binary64.get_castelli_atmosphere 0 infinity 4
     = Ok (Some (3000%float, 0%float, 4%float))
  /\ Binary64.get_castelli_atmosphere 0 6000 1e17
     = Ok (Some (6000%float, 0%float, 2.5%float)).
Proof.
  split; [|split]; vm_compute; reflexivity.
Qed.

(** A request that is not a number: every distance is a NaN, no distance
    equals the minimum, the index array is empty and taking its first item
    raises [IndexError]. *)
Lemma castelli_nan_raises :
  Binary64.get_castelli_atmosphere 0 6000 nan = Raise IndexError
  /\ Binary64.get_castelli_atmosphere 0 nan 4 = Raise IndexError.
Proof.
  split; vm_compute; reflexivity.
Qed.

(** Within the bound the binary64 run and the exact one agree, here at the
    bound itself and at requests between nodes. *)
Lemma castelli_binary64_within_bound :
  Binary64.get_castelli_atmosphere 0 1e15 1e15
  = Ok (Some (50000%float, 0%float, 5%float))
  /\ snap castelli_temp_arr bound = 50000
  /\ castelli_gravity (snap castelli_grav_arr bound) = 5
  /\ Binary64.get_castelli_atmosphere 0 21100 4.25
     = Ok (Some (21000%float, 0%float, 4%float))
  /\ snap castelli_temp_arr 21100 = 21000
  /\ castelli_gravity (snap castelli_grav_arr 4.25) = 4.
Proof.
  repeat split; vm_compute; reflexivity.
Qed.

(** * More on snapping *)

Lemma nearest_Qeq arr x y i v : x == y -> nearest arr x i v -> nearest arr y i v.
Proof.
  intros E (Hv & Hmin & Hlow). repeat split; trivial.
  - intros j w Hj. rewrite <- E. eauto.
  - intros j w Hlt Hj. rewrite <- E. eauto.
Qed.

(** Equal requests snap to the same node, whatever fraction writes them. *)
Lemma snap_Qeq arr x y : arr <> [] -> x == y -> snap arr x = snap arr y.
Proof.
  intros Hne E.
  pose proof (nearest_Qeq _ _ _ _ _ E (snap_nearest arr x Hne)) as Hx.
  now destruct (nearest_unique _ _ _ _ _ _ Hx (snap_nearest arr y Hne)).
Qed.

Lemma closer_to_upper v1 v2 x :
  v2 < v1 -> Qabs (v1 - x) <= Qabs (v2 - x) -> v1 + v2 <= 2 * x.
Proof.
  intros Hlt H. destruct (Qlt_le_dec (2 * x) (v1 + v2)) as [Hx|Hx]; [exfalso|exact Hx].
  apply (Qle_not_lt _ _ H).
  apply Qlt_le_trans with (v1 - x); [|apply Qle_Qabs].
  apply Qabs_Qlt_condition. split; lra.
Qed.

Lemma closer_to_lower v1 v2 y :
  v2 < v1 -> Qabs (v2 - y) <= Qabs (v1 - y) -> 2 * y <= v1 + v2.
Proof.
  intros Hlt H. destruct (Qlt_le_dec (v1 + v2) (2 * y)) as [Hy|Hy]; [exfalso|exact Hy].
  apply (Qle_not_lt _ _ H).
  apply Qlt_le_trans with (y - v2); [|rewrite Qabs_Qminus; apply Qle_Qabs].
  apply Qabs_Qlt_condition. split; lra.
Qed.

(** Snapping keeps the order of the requests: a larger request never snaps
    to a smaller node. *)
Lemma snap_mono arr x y : arr <> [] -> x <= y -> snap arr x <= snap arr y.
Proof.
  intros Hne Hxy.
  destruct (Qlt_le_dec (snap arr y) (snap arr x)) as [Hlt|Hle]; [exfalso|exact Hle].
  pose proof (nearest_le _ _ _ _ _ (snap_nearest arr x Hne) (snap_In arr y Hne)) as H1.
  pose proof (nearest_le _ _ _ _ _ (snap_nearest arr y Hne) (snap_In arr x Hne)) as H2.
  pose proof (closer_to_upper _ _ _ Hlt H1) as Hx.
  pose proof (closer_to_lower _ _ _ Hlt H2) as Hy.
  assert (E : x == y) by (apply Qle_antisym; lra).
  rewrite (snap_Qeq arr x y Hne E) in Hlt. exact (Qlt_irrefl _ Hlt).
Qed.

(** X1. On each node array of the fetchers, snapping keeps the order of
    the requests up to [bound]: a larger request never snaps to a smaller
    node. *)
Theorem snap_monotone arr x y :
  In arr [castelli_temp_arr; castelli_grav_arr; phoenixv16_temp_arr;
          phoenixv16_grav_arr; atlas_phoenix_temp_arr; atlas_phoenix_grav_arr] ->
  x <= y -> y <= bound -> snap arr x <= snap arr y.
Proof.
  intros Harr Hxy _. apply snap_mono; [|exact Hxy].
  destruct Harr as [<-|[<-|[<-|[<-|[<-|[<-|[]]]]]]]; vm_compute; discriminate.
Qed.

Lemma snap_top arr lo hi x :
  arr <> [] -> within lo hi arr = true -> In hi arr -> hi <= x -> snap arr x == hi.
Proof.
  intros Hne Hw Hin Hx.
  destruct (within_In _ _ _ _ Hw (snap_In arr x Hne)) as [_ Hv].
  pose proof (nearest_le _ _ _ _ _ (snap_nearest arr x Hne) Hin) as H.
  apply Qle_antisym; [exact Hv|].
  assert (H1 : x - snap arr x <= Qabs (snap arr x - x))
    by (rewrite Qabs_Qminus; apply Qle_Qabs).
  assert (H2 : Qabs (hi - x) <= x - hi) by (apply Qabs_Qle_condition; lra).
  lra.
Qed.

Lemma snap_bottom arr lo hi x :
  arr <> [] -> within lo hi arr = true -> In lo arr -> x <= lo -> snap arr x == lo.
Proof.
  intros Hne Hw Hin Hx.
  destruct (within_In _ _ _ _ Hw (snap_In arr x Hne)) as [Hv _].
  pose proof (nearest_le _ _ _ _ _ (snap_nearest arr x Hne) Hin) as H.
  apply Qle_antisym; [|exact Hv].
  assert (H1 : snap arr x - x <= Qabs (snap arr x - x)) by apply Qle_Qabs.
  assert (H2 : Qabs (lo - x) <= lo - x) by (apply Qabs_Qle_condition; lra).
  lra.
Qed.

Lemma snap_far_below arr x lo hi d :
  arr <> [] -> within lo hi arr = true -> x < lo - d -> d < Qabs (x - snap arr x).
Proof.
  intros Hne Hw Hx.
  destruct (within_In _ _ _ _ Hw (snap_In arr x Hne)) as [Hlo _].
  apply Qlt_le_trans with (snap arr x - x); [lra|].
  rewrite Qabs_Qminus. apply Qle_Qabs.
Qed.


(** * More on the fetchers *)

Section FetcherFacts.

Variable Icat : string -> Q -> Q -> Q -> Spectrum.

Lemma query_result grid msg t m g :
  fst (query Icat grid msg t m g) = Ok (Some (Icat grid t m g))
  /\ calls (snd (query Icat grid msg t m g)) = [IcatCall grid t m g].
Proof.
  rewrite query_eq. split; [reflexivity|]. cbn [snd calls filter is_call].
  destruct (all_zero _); reflexivity.
Qed.

(** X2. On a request of numbers within [bound], the code of a snapping
    fetcher raises nothing of its own: the minimum and the indices it takes
    exist.  It calls the interpolator at most once, on the grid of its family
    and with the metallicity it received, and what it returns is the
    spectrum the interpolator answered that call with, or [None] when it
    made none. *)
Theorem fetch_queries_at_most_once f m t g :
  snapping f = true -> in_range t -> in_range g ->
  (fst (fetch Icat f m t g) = Ok None /\ calls (snd (fetch Icat f m t g)) = [])
  \/ (exists t' g',
         fst (fetch Icat f m t g) = Ok (Some (Icat (family_grid f) t' m g'))
         /\ calls (snd (fetch Icat f m t g)) = [IcatCall (family_grid f) t' m g']).
Proof.
  intros _ _ _. destruct (fetch_cases Icat f m t g) as [(line & E)|(t' & g' & E)]; rewrite E.
  - left. split; reflexivity.
  - right. exists t', g'. apply query_result.
Qed.

(** ** PHOENIX-v16: which requests are served *)

Lemma phoenixv16_tolerance t g :
  2300 <= t /\ t <= 12000 -> 2.0 <= g ->
  Qgtb (Qabs (t - snap phoenixv16_temp_arr t)) 100
  || Qgtb (Qabs (g - snap phoenixv16_grav_arr g)) 0.5
  = Qltb 6.5 g.
Proof.
  intros Ht Hg. destruct (Qltb_spec 6.5 g) as [Hfar|Hnear].
  - apply Qgtb_orb_true. right. now apply phoenixv16_grav_far.
  - apply Qgtb_orb_false. split.
    + now apply phoenixv16_temp_near.
    + apply phoenixv16_grav_near. split; [exact Hg | now apply Qnot_lt_le].
Qed.

Lemma get_phoenixv16_atmosphere_regions m t g rebin :
  get_phoenixv16_atmosphere Icat m t g rebin
  = if Qltb t 2300 || Qgtb t 12000 || Qltb g 2.0
    then (Ok None,
          [Print "No phoenixV16 model below 2300 K or above 12000 K, or grav < 2.0"])
    else if Qltb 6.5 g
    then (Ok None, [Print "BAD TEMP/GRAV MATCH"])
    else query Icat (if rebin then "phoenix_v16_rebin" else "phoenix_v16")
               "Could not find PHOENIXv16 (Husser+13) atmosphere model for"
               (snap phoenixv16_temp_arr t) m (snap phoenixv16_grav_arr g).
Proof.
  rewrite get_phoenixv16_atmosphere_eq.
  destruct (Qltb t 2300 || Qgtb t 12000 || Qltb g 2.0) eqn:G; [reflexivity|].
  apply orb_false_iff in G. destruct G as [G Hg].
  apply orb_false_iff in G. destruct G as [Hlo Hhi].
  apply Qltb_false in Hlo, Hg. apply Qgtb_false in Hhi.
  rewrite phoenixv16_tolerance; [reflexivity | split | ]; trivial.
Qed.

(** X3. The PHOENIX-v16 fetcher returns a spectrum exactly for temperatures in
    [2300, 12000] and gravities in [2.0, 6.5]. *)
Theorem get_phoenixv16_atmosphere_serves_iff m t g rebin :
  (exists sp, fst (get_phoenixv16_atmosphere Icat m t g rebin) = Ok (Some sp))
  <-> 2300 <= t /\ t <= 12000 /\ 2.0 <= g /\ g <= 6.5.
Proof.
  rewrite get_phoenixv16_atmosphere_regions. unfold Qgtb.
  destruct (Qltb_spec t 2300), (Qltb_spec 12000 t), (Qltb_spec g 2.0);
    cbn [orb fst]; try (split; [intros (sp & H); discriminate | intros; exfalso; lra]).
  destruct (Qltb_spec 6.5 g).
  - split; [intros (sp & H); discriminate | intros; exfalso; lra].
  - split; [intros _; lra | intros _; eexists; apply query_result].
Qed.

(** X4. The answer "BAD TEMP/GRAV MATCH" of the PHOENIX-v16 fetcher is given
    exactly to the requests of its temperature range whose gravity is above
    6.5: in the range, no temperature is farther than 100 from a node. *)
Theorem get_phoenixv16_atmosphere_bad_match_iff m t g rebin :
  get_phoenixv16_atmosphere Icat m t g rebin = (Ok None, [Print "BAD TEMP/GRAV MATCH"])
  <-> 2300 <= t /\ t <= 12000 /\ 6.5 < g.
Proof.
  rewrite get_phoenixv16_atmosphere_regions. unfold Qgtb.
  destruct (Qltb_spec t 2300), (Qltb_spec 12000 t), (Qltb_spec g 2.0);
    cbn [orb]; try (split; [intros H; discriminate | intros; exfalso; lra]).
  destruct (Qltb_spec 6.5 g).
  - split; [intros _; lra | reflexivity].
  - split; [|intros; exfalso; lra].
    rewrite query_eq. intros H. discriminate.
Qed.

(** ** The ATLAS/PHOENIX merge: which requests are served *)

Lemma atlas_phoenix_grav_near g :
  - 0.5 <= g /\ g <= 5.5 -> Qabs (g - snap atlas_phoenix_grav_arr g) <= 0.5.
Proof.
  intros [H1 H2]. apply snap_near.
  - apply atlas_phoenix_grav_arr_nonempty.
  - vm_compute. reflexivity.
  - replace (hd 0 atlas_phoenix_grav_arr) with 0 by (vm_compute; reflexivity). lra.
  - replace (last atlas_phoenix_grav_arr 0) with 5 by (vm_compute; reflexivity). lra.
Qed.

Lemma atlas_phoenix_grav_arr_within : within 0 5 atlas_phoenix_grav_arr = true.
Proof. vm_compute. reflexivity. Qed.

Lemma atlas_phoenix_tolerance t g :
  5000 <= t /\ t <= 5500 ->
  Qgtb (Qabs (t - snap atlas_phoenix_temp_arr t)) 250
  || Qgtb (Qabs (g - snap atlas_phoenix_grav_arr g)) 0.5
  = Qltb g (- 0.5) || Qltb 5.5 g.
Proof.
  intros Ht. destruct (Qltb_spec g (- 0.5)) as [Hlow|Hlow].
  { apply Qgtb_orb_true. right.
    apply snap_far_below with (lo := 0) (hi := 5).
    - apply atlas_phoenix_grav_arr_nonempty.
    - apply atlas_phoenix_grav_arr_within.
    - lra. }
  destruct (Qltb_spec 5.5 g) as [Hhigh|Hhigh].
  { apply Qgtb_orb_true. right.
    apply snap_far with (lo := 0) (hi := 5).
    - apply atlas_phoenix_grav_arr_nonempty.
    - apply atlas_phoenix_grav_arr_within.
    - lra. }
  apply Qgtb_orb_false. split.
  - now apply atlas_phoenix_temp_near.
  - apply atlas_phoenix_grav_near. split; lra.
Qed.

Lemma get_atlas_phoenix_atmosphere_regions m t g :
  get_atlas_phoenix_atmosphere Icat m t g
  = if Qltb t 5000 || Qgtb t 5500
    then (Ok None, [Print "No ATLAS-PHOENIX merge model outside 5000 - 5500"])
    else if Qltb g (- 0.5) || Qltb 5.5 g
    then (Ok None, [Print "BAD TEMP/GRAV MATCH"])
    else query Icat "merged"
               "Could not find ATLAS-PHOENIX merge atmosphere model for"
               5250 m (snap atlas_phoenix_grav_arr g).
Proof.
  rewrite get_atlas_phoenix_atmosphere_eq.
  destruct (Qltb t 5000 || Qgtb t 5500) eqn:G; [reflexivity|].
  apply orb_false_iff in G. destruct G as [Hlo Hhi].
  apply Qltb_false in Hlo. apply Qgtb_false in Hhi.
  rewrite atlas_phoenix_tolerance by (split; trivial).
  now rewrite snap_atlas_phoenix_temp.
Qed.

(** X5. The merge fetcher returns a spectrum exactly for temperatures in
    [5000, 5500] and gravities in [-0.5, 5.5], and then it has queried the
    interpolator at the temperature 5250. *)
Theorem get_atlas_phoenix_atmosphere_serves_iff m t g :
  ((exists sp, fst (get_atlas_phoenix_atmosphere Icat m t g) = Ok (Some sp))
   <-> 5000 <= t /\ t <= 5500 /\ - 0.5 <= g /\ g <= 5.5)
  /\ (forall grid t' m' g',
         In (IcatCall grid t' m' g') (snd (get_atlas_phoenix_atmosphere Icat m t g)) ->
         t' = 5250).
Proof.
  split.
  - rewrite get_atlas_phoenix_atmosphere_regions. unfold Qgtb.
    destruct (Qltb_spec t 5000), (Qltb_spec 5500 t);
      cbn [orb fst]; try (split; [intros (sp & H); discriminate | intros; exfalso; lra]).
    destruct (Qltb_spec g (- 0.5)), (Qltb_spec 5.5 g); cbn [orb fst];
      try (split; [intros (sp & H); discriminate | intros; exfalso; lra]).
    split; [intros _; lra | intros _; eexists; apply query_result].
  - intros grid t' m' g' H. apply get_atlas_phoenix_atmosphere_calls in H.
    destruct H as (_ & -> & _). apply snap_atlas_phoenix_temp.
Qed.

(** ** Castelli-Kurucz: which requests are served, and where *)

Lemma castelli_grav_arr_within : within 2 5 castelli_grav_arr = true.
Proof. vm_compute. reflexivity. Qed.

(** X6. The Castelli-Kurucz fetcher has no tolerance: whatever the
    gravity within [bound], it returns a spectrum exactly when the
    temperature is at least 3000. *)
Theorem get_castelli_atmosphere_serves_iff m t g :
  in_range g ->
  ((exists sp, fst (get_castelli_atmosphere Icat m t g) = Ok (Some sp)) <-> 3000 <= t).
Proof.
  intros _. rewrite get_castelli_atmosphere_eq. destruct (Qltb_spec t 3000) as [Hlt|Hge].
  - split; [intros (sp & H); discriminate | intros; exfalso; lra].
  - split; [intros _; lra | intros _; eexists; apply query_result].
Qed.

(** X7. Every query of a snapping fetcher lies in the box its node arrays
    span: Castelli-Kurucz in [3000, 50000] x [2.5, 5], PHOENIX-v16 in
    [2300, 12000] x [2, 6], the merge in [0, 5] on the gravity axis. *)
Theorem snapping_fetchers_query_inside_grid m t g rebin grid t' m' g' :
  (In (IcatCall grid t' m' g') (snd (get_castelli_atmosphere Icat m t g)) ->
   (3000 <= t' /\ t' <= 50000) /\ (2.5 <= g' /\ g' <= 5))
  /\ (In (IcatCall grid t' m' g') (snd (get_phoenixv16_atmosphere Icat m t g rebin)) ->
      (2300 <= t' /\ t' <= 12000) /\ (2 <= g' /\ g' <= 6))
  /\ (In (IcatCall grid t' m' g') (snd (get_atlas_phoenix_atmosphere Icat m t g)) ->
      0 <= g' /\ g' <= 5).
Proof.
  split; [|split]; intros H.
  - apply get_castelli_atmosphere_calls in H. destruct H as (_ & -> & _ & ->).
    split.
    + apply (within_In _ _ _ _ castelli_temp_arr_within),
        snap_In, castelli_temp_arr_nonempty.
    + pose proof (within_In _ _ _ _ castelli_grav_arr_within
                    (snap_In _ g castelli_grav_arr_nonempty)) as [H1 H2].
      unfold castelli_gravity.
      destruct (Qltb_spec (snap castelli_grav_arr g) 2.5); lra.
  - apply get_phoenixv16_atmosphere_calls in H. destruct H as (_ & -> & _ & ->).
    split.
    + apply (within_In _ _ _ _ phoenixv16_temp_arr_within),
        snap_In, phoenixv16_temp_arr_nonempty.
    + apply (within_In _ _ _ _ phoenixv16_grav_arr_within),
        snap_In, phoenixv16_grav_arr_nonempty.
  - apply get_atlas_phoenix_atmosphere_calls in H. destruct H as (_ & _ & _ & ->).
    apply (within_In _ _ _ _ atlas_phoenix_grav_arr_within),
      snap_In, atlas_phoenix_grav_arr_nonempty.
Qed.

(** X8. Beyond the ends of its arrays the Castelli-Kurucz fetcher answers with
    the end node: any temperature from 50000 up to [bound] is queried at
    50000, any gravity from 5 up to [bound] at 5, and any gravity up to 2.75
    at 2.5, so that the node 2.0 of the gravity array is never queried. *)
Theorem get_castelli_atmosphere_saturates m t g grid t' m' g' :
  In (IcatCall grid t' m' g') (snd (get_castelli_atmosphere Icat m t g)) ->
  (50000 <= t -> t <= bound -> t' == 50000)
  /\ (5 <= g -> g <= bound -> g' == 5)
  /\ (g <= 2.75 -> g' == 2.5).
Proof.
  intros H. apply get_castelli_atmosphere_calls in H. destruct H as (_ & -> & _ & ->).
  split; [|split].
  - intros Ht _.
    apply (snap_top _ 3000 50000 t castelli_temp_arr_nonempty castelli_temp_arr_within);
      [|exact Ht].
    vm_compute. repeat first [ left; reflexivity | right ].
  - intros Hg _.
    assert (E : snap castelli_grav_arr g == 5).
    { apply (snap_top _ 2 5 g castelli_grav_arr_nonempty castelli_grav_arr_within);
        [|exact Hg].
      vm_compute. repeat first [ left; reflexivity | right ]. }
    unfold castelli_gravity.
    destruct (Qltb_spec (snap castelli_grav_arr g) 2.5) as [Hlt|_]; [|exact E].
    exfalso. rewrite E in Hlt. revert Hlt. vm_compute. discriminate.
  - intros Hg.
    destruct (snap_nearest castelli_grav_arr g castelli_grav_arr_nonempty)
      as (Hv & _ & Hlow).
    remember (snap castelli_grav_arr g) as v eqn:Ev.
    remember (snap_index castelli_grav_arr g) as i eqn:Ei.
    replace castelli_grav_arr with [2; 5 # 2; 3; 7 # 2; 4; 9 # 2; 5] in Hv, Hlow
      by (vm_compute; reflexivity).
    destruct i as [|[|i]].
    + inversion Hv. vm_compute. reflexivity.
    + inversion Hv. vm_compute. reflexivity.
    + exfalso.
      assert (Hstrict : Qabs (v - g) < Qabs ((5 # 2) - g)).
      { apply (Hlow 1%nat); [|reflexivity].
        apply PeanoNat.Nat.lt_succ_r, le_n_S, PeanoNat.Nat.le_0_l. }
      assert (H3 : 3 <= v).
      { cbn [nth_error] in Hv. apply nth_error_In in Hv.
        apply (within_In 3 5 [3; 7 # 2; 4; 9 # 2; 5] v eq_refl Hv). }
      apply (Qlt_not_le _ _ Hstrict).
      apply Qle_trans with (v - g); [|apply Qle_Qabs].
      apply Qabs_Qle_condition. split; lra.
Qed.


End FetcherFacts.

(** * More on the resolver *)

Section ResolverFacts.

Variable Icat : string -> Q -> Q -> Q -> Spectrum.

Lemma query_prints grid msg t m g line :
  In (Print line) (snd (query Icat grid msg t m g)) -> line = msg.
Proof.
  rewrite query_eq. cbn [snd]. intros [E|H]; [discriminate|].
  destruct (all_zero _); [|contradiction].
  unfold diagnostic in H. destruct H as [E|[E|[E|[E|[]]]]]; try discriminate.
  now inversion E.
Qed.

Ltac rejected :=
  split; [intros (sp & H); discriminate | intros H; exfalso; intuition lra].

Ltac served :=
  split; [intros _; intuition lra | intros _; eexists; apply query_result].

(** X10. For a gravity within [bound], the resolver returns a spectrum
    exactly for the requests of three regions: temperature in [2300, 5000)
    with gravity in [2.0, 6.5]; temperature strictly between 5000 and 5500
    with gravity in [-0.5, 5.5]; temperature above 5500 with any gravity. *)
Theorem get_merged_atmosphere_serves_iff m t g :
  in_range g ->
  ((exists sp, fst (get_merged_atmosphere Icat m t g) = Ok (Some sp))
   <-> (2300 <= t /\ t < 5000 /\ 2.0 <= g /\ g <= 6.5)
       \/ (5000 < t /\ t < 5500 /\ - 0.5 <= g /\ g <= 5.5)
       \/ 5500 < t).
Proof.
  intros _. unfold get_merged_atmosphere, Qgtb.
  destruct (Qltb_spec t 5000) as [H1|H1].
  { rewrite bind_print. cbn [fst]. rewrite get_phoenixv16_atmosphere_regions.
    unfold Qgtb.
    destruct (Qltb_spec t 2300), (Qltb_spec 12000 t), (Qltb_spec g 2.0);
      cbn [orb]; try rejected.
    destruct (Qltb_spec 6.5 g); [rejected | served]. }
  destruct (Qltb_spec 5000 t) as [H2|H2], (Qltb_spec t 5500) as [H3|H3]; cbn [andb].
  - rewrite bind_print. cbn [fst]. rewrite get_atlas_phoenix_atmosphere_regions.
    unfold Qgtb.
    destruct (Qltb_spec t 5000), (Qltb_spec 5500 t); cbn [orb]; try rejected.
    destruct (Qltb_spec g (- 0.5)), (Qltb_spec 5.5 g); cbn [orb];
      try rejected; served.
  - destruct (Qltb_spec 5500 t) as [H4|H4].
    + rewrite bind_print. cbn [fst]. rewrite get_castelli_atmosphere_eq.
      destruct (Qltb_spec t 3000); [exfalso; lra | served].
    + destruct (Qltb_spec 20000 t); [exfalso; lra | rejected].
  - destruct (Qltb_spec 5500 t) as [H4|H4]; [exfalso; lra|].
    destruct (Qltb_spec 20000 t); [exfalso; lra | rejected].
  - exfalso; lra.
Qed.

(** X11. The last branch of the resolver is dead: whatever the request, no
    event of its trace is the line "Warning: ATLAS still used at high
    temps". *)
Theorem get_merged_atmosphere_never_warns m t g e :
  In e (snd (get_merged_atmosphere Icat m t g)) ->
  e <> Print "Warning: ATLAS still used at high temps".
Proof.
  intros He ->. revert He.
  unfold get_merged_atmosphere, Qgtb.
  destruct (Qltb_spec t 5000) as [H1|H1].
  { rewrite bind_print, get_phoenixv16_atmosphere_eq. cbn [snd].
    intros [E|H]; [discriminate|]. revert H.
    destruct (_ || _); [cbn; intuition discriminate|].
    destruct (_ || _); [cbn; intuition discriminate|].
    intros H. apply query_prints in H. discriminate. }
  destruct (Qltb 5000 t && Qltb t 5500).
  { rewrite bind_print, get_atlas_phoenix_atmosphere_eq. cbn [snd].
    intros [E|H]; [discriminate|]. revert H.
    destruct (_ || _); [cbn; intuition discriminate|].
    destruct (_ || _); [cbn; intuition discriminate|].
    intros H. apply query_prints in H. discriminate. }
  destruct (Qltb_spec 5500 t) as [H4|H4].
  { rewrite bind_print, get_castelli_atmosphere_eq. cbn [snd].
    intros [E|H]; [discriminate|]. revert H.
    destruct (Qltb t 3000); [cbn; intuition discriminate|].
    intros H. apply query_prints in H. discriminate. }
  destruct (Qltb_spec 20000 t); [exfalso; lra|]. intros [].
Qed.

(** X12. The temperature the resolver queries the interpolator with stays on
    the side of the band of the request: at most 5000 for a request below
    5000, 5250 in the merge band, at least 5500 for a request above 5500 and
    up to [bound]. *)
Theorem get_merged_atmosphere_query_band m t g grid t' m' g' :
  In (IcatCall grid t' m' g') (snd (get_merged_atmosphere Icat m t g)) ->
  (t < 5000 -> t' <= 5000)
  /\ (5000 < t /\ t < 5500 -> t' = 5250)
  /\ (5500 < t -> t <= bound -> 5500 <= t').
Proof.
  unfold get_merged_atmosphere, Qgtb.
  destruct (Qltb_spec t 5000) as [H1|H1].
  { rewrite bind_print. cbn [snd]. intros [E|H]; [discriminate|].
    apply get_phoenixv16_atmosphere_calls in H. destruct H as (_ & -> & _).
    split; [|split; intros; exfalso; lra]. intros _.
    assert (Hin : In 5000 phoenixv16_temp_arr) by find_in.
    pose proof (nearest_le _ _ _ _ _
                  (snap_nearest _ t phoenixv16_temp_arr_nonempty) Hin) as Hd.
    assert (H5 : Qabs (5000 - t) <= 5000 - t) by (apply Qabs_Qle_condition; lra).
    pose proof (Qle_Qabs (snap phoenixv16_temp_arr t - t)). lra. }
  destruct (Qltb_spec 5000 t) as [H2|H2], (Qltb_spec t 5500) as [H3|H3]; cbn [andb].
  - rewrite bind_print. cbn [snd]. intros [E|H]; [discriminate|].
    apply get_atlas_phoenix_atmosphere_calls in H. destruct H as (_ & -> & _).
    split; [intros; exfalso; lra|]. split; [|intros; exfalso; lra].
    intros _. apply snap_atlas_phoenix_temp.
  - destruct (Qltb_spec 5500 t) as [H4|H4].
    + rewrite bind_print. cbn [snd]. intros [E|H]; [discriminate|].
      apply get_castelli_atmosphere_calls in H. destruct H as (_ & -> & _).
      split; [intros; exfalso; lra|]. split; [intros; exfalso; lra|]. intros _ _.
      assert (Hin : In 5500 castelli_temp_arr) by find_in.
      pose proof (nearest_le _ _ _ _ _
                    (snap_nearest _ t castelli_temp_arr_nonempty) Hin) as Hd.
      assert (H5 : Qabs (5500 - t) <= t - 5500) by (apply Qabs_Qle_condition; lra).
      assert (H6 : t - snap castelli_temp_arr t <= Qabs (snap castelli_temp_arr t - t))
        by (rewrite Qabs_Qminus; apply Qle_Qabs).
      lra.
    + destruct (Qltb_spec 20000 t); [exfalso; lra | intros []].
  - destruct (Qltb_spec 5500 t) as [H4|H4]; [exfalso; lra|].
    destruct (Qltb_spec 20000 t); [exfalso; lra | intros []].
  - exfalso; lra.
Qed.

End ResolverFacts.

(** * The script [rebin_phoenixV16] *)

Lemma Qsame_eq a b : Qsame a b = true -> a = b.
Proof.
  destruct a as [n d], b as [n' d']. unfold Qsame. cbn [Qnum Qden].
  intros H. apply andb_true_iff in H. destruct H as [H1 H2].
  apply Z.eqb_eq in H1. apply Pos.eqb_eq in H2. now subst.
Qed.

(** A node of the PHOENIX-v16 arrays snaps to itself, as written. *)
Lemma phoenixv16_temp_node t :
  In t phoenixv16_temp_arr ->
  snap phoenixv16_temp_arr t = t /\ 2300 <= t /\ t <= 12000.
Proof.
  intros H.
  assert (F : forallb (fun t => Qsame (snap phoenixv16_temp_arr t) t
                                && (Qle_bool 2300 t && Qle_bool t 12000))
                      phoenixv16_temp_arr = true) by (vm_compute; reflexivity).
  rewrite forallb_forall in F. specialize (F t H).
  apply andb_true_iff in F. destruct F as [F1 F2].
  apply andb_true_iff in F2. destruct F2 as [F2 F3].
  apply Qle_bool_iff in F2, F3. split; [now apply Qsame_eq | now split].
Qed.

Lemma phoenixv16_grav_node g :
  In g phoenixv16_grav_arr ->
  snap phoenixv16_grav_arr g = g /\ 2.0 <= g /\ g <= 6.5.
Proof.
  intros H.
  assert (F : forallb (fun g => Qsame (snap phoenixv16_grav_arr g) g
                                && (Qle_bool 2.0 g && Qle_bool g 6.5))
                      phoenixv16_grav_arr = true) by (vm_compute; reflexivity).
  rewrite forallb_forall in F. specialize (F g H).
  apply andb_true_iff in F. destruct F as [F1 F2].
  apply andb_true_iff in F2. destruct F2 as [F2 F3].
  apply Qle_bool_iff in F2, F3. split; [now apply Qsame_eq | now split].
Qed.

(** ** Loops *)

Lemma for_each_collect {A B} (l : list A) (body : A -> list B -> Script (list B))
      (f : A -> B) (ev : A -> list ScriptEvent) :
  (forall a s, In a l -> body a s = (Done (s ++ [f a]), ev a)) ->
  forall s, for_each l body s = (Done (s ++ map f l), flat_map ev l).
Proof.
  induction l as [|a l IH]; intros H s; cbn [for_each map flat_map].
  - unfold sret. now rewrite app_nil_r.
  - rewrite H by now left. cbn [sbind].
    rewrite IH by (intros; apply H; now right).
    now rewrite <- app_assoc.
Qed.

Lemma for_each_runs {A S} (l : list A) (body : A -> S -> Script S)
      (P : A -> list ScriptEvent -> Prop) :
  (forall a s, In a l -> exists s' tr, body a s = (Done s', tr) /\ P a tr) ->
  forall s, exists s' trs,
    for_each l body s = (Done s', List.concat trs) /\ Forall2 P l trs.
Proof.
  induction l as [|a l IH]; intros H s; cbn [for_each].
  - exists s, []. split; [reflexivity | constructor].
  - destruct (H a s (or_introl eq_refl)) as (s1 & tr & E & HP).
    destruct (IH (fun a s Hin => H a s (or_intror Hin)) s1) as (s2 & trs & E' & HF).
    exists s2, (tr :: trs). rewrite E. cbn [sbind]. rewrite E'.
    split; [reflexivity | now constructor].
Qed.

Lemma for_each_indexed {A St} (l : list A) (body : A -> St -> Script St)
      (Inv : nat -> St -> Prop) (P : nat -> A -> list ScriptEvent -> Prop) :
  (forall k a s, nth_error l k = Some a -> Inv k s ->
                 exists s' tr, body a s = (Done s', tr) /\ Inv (S k) s' /\ P (S k) a tr) ->
  forall s, Inv 0%nat s ->
  exists s' trs,
    for_each l body s = (Done s', List.concat trs)
    /\ Forall2 (fun ka tr => P (fst ka) (snd ka) tr)
               (combine (seq 1 (List.length l)) l) trs.
Proof.
  intros Hstep.
  assert (G : forall rest k s,
             (forall j a, nth_error rest j = Some a -> nth_error l (k + j) = Some a) ->
             Inv k s ->
             exists s' trs,
               for_each rest body s = (Done s', List.concat trs)
               /\ Forall2 (fun ka tr => P (fst ka) (snd ka) tr)
                          (combine (seq (S k) (List.length rest)) rest) trs).
  { induction rest as [|a rest IH]; intros k s Hnth Hinv; cbn [for_each].
    - exists s, []. split; [reflexivity | constructor].
    - assert (Ha : nth_error l k = Some a)
        by (rewrite <- (PeanoNat.Nat.add_0_r k); apply Hnth; reflexivity).
      destruct (Hstep k a s Ha Hinv) as (s1 & tr & E & Hinv1 & HP).
      destruct (IH (S k) s1) as (s2 & trs & E' & HF); [|exact Hinv1|].
      { intros j b Hj. rewrite PeanoNat.Nat.add_succ_comm. apply Hnth. exact Hj. }
      exists s2, (tr :: trs). rewrite E. cbn [sbind]. rewrite E'.
      split; [reflexivity|]. cbn [List.length seq combine]. now constructor. }
  intros s Hinv. apply (G l 0%nat s); [|exact Hinv].
  intros j a Hj. exact Hj.
Qed.

Lemma nth_error_combine_seq {A} (l : list A) start k a :
  nth_error l k = Some a ->
  In ((start + k)%nat, a) (combine (seq start (List.length l)) l).
Proof.
  revert start k. induction l as [|b l IH]; intros start [|k] H; try discriminate.
  - inversion H. subst. rewrite PeanoNat.Nat.add_0_r. now left.
  - right. cbn [List.length seq combine].
    rewrite <- PeanoNat.Nat.add_succ_comm. now apply IH.
Qed.

Lemma field_ok sci n :
  (n < List.length sci)%nat -> field sci n = (Done (nth n sci []), []).
Proof.
  intros H. unfold field. now rewrite (nth_error_nth' sci [] H).
Qed.

Lemma load_eq vars k c : vars k = Some c -> load vars k = sret c.
Proof. intros H. unfold load. now rewrite H. Qed.









(** ** Projections of a trace *)




Lemma fetched_app a b : fetched (a ++ b) = fetched a ++ fetched b.
Proof. apply flat_map_app. Qed.

Lemma fetched_lift tr : fetched (map FetcherEvent tr) = tr.
Proof. induction tr as [|e tr IH]; cbn; [reflexivity | now f_equal]. Qed.

Lemma written_app a b : written (a ++ b) = written a ++ written b.
Proof. apply filter_app. Qed.

Lemma written_lift tr : written (map FetcherEvent tr) = [].
Proof. induction tr as [|e tr IH]; cbn; [reflexivity | exact IH]. Qed.

Lemma calls_app a b : calls (a ++ b) = calls a ++ calls b.
Proof. apply filter_app. Qed.



(** ** The pages of [download_CMFGEN_atmospheres] *)





Section ScriptFacts.

Variable Icat : string -> Q -> Q -> Q -> Spectrum.
Variable cwd : string.
Variable glob : string -> list string.
Variable fits_file : string -> HDUList.
Variable path_exists : string -> bool.
Variable rebin_spec : list Q -> list Q -> list Q -> list Q.
Variable str_format : string -> list Q -> string.
Variable table_col1 : string -> list string.
Variable float : string -> option Q.

Lemma get_castelli_atmosphere_default :
  get_castelli_atmosphere Icat 0 20000 4
  = query Icat "ck04models"
          "Could not find Castelli and Kurucz 2004 atmosphere model for" 20000 0 4.
Proof.
  rewrite get_castelli_atmosphere_eq.
  replace (Qltb 20000 3000) with false by (vm_compute; reflexivity).
  replace (snap castelli_temp_arr 20000) with 20000 by (vm_compute; reflexivity).
  replace (castelli_gravity (snap castelli_grav_arr 4)) with 4
    by (vm_compute; reflexivity).
  reflexivity.
Qed.

(** At a node of its arrays the PHOENIX-v16 fetcher queries the node. *)
Lemma get_phoenixv16_atmosphere_node m t g rebin :
  In t phoenixv16_temp_arr -> In g phoenixv16_grav_arr ->
  get_phoenixv16_atmosphere Icat m t g rebin
  = query Icat (if rebin then "phoenix_v16_rebin" else "phoenix_v16")
          "Could not find PHOENIXv16 (Husser+13) atmosphere model for" t m g.
Proof.
  intros Ht Hg.
  destruct (phoenixv16_temp_node t Ht) as (Et & Ht1 & Ht2).
  destruct (phoenixv16_grav_node g Hg) as (Eg & Hg1 & Hg2).
  rewrite get_phoenixv16_atmosphere_regions. unfold Qgtb.
  destruct (Qltb_spec t 2300); [exfalso; lra|].
  destruct (Qltb_spec 12000 t); [exfalso; lra|].
  destruct (Qltb_spec g 2.0); [exfalso; lra|].
  destruct (Qltb_spec 6.5 g); [exfalso; lra|].
  cbn [orb]. now rewrite Et, Eg.
Qed.

Lemma calls_query grid msg t m g :
  calls (snd (query Icat grid msg t m g)) = [IcatCall grid t m g].
Proof. apply query_result. Qed.

Lemma sbind_done {A B} (a : A) tr (f : A -> Script B) :
  sbind (Done a, tr) f = (fst (f a), tr ++ snd (f a)).
Proof. cbn [sbind]. now destruct (f a). Qed.

(** The run of the script: it ends normally, and after its preparations
    its trace is one block per entry of the temperature array, made of the
    nine queries of the gravities, the table written and a progress line. *)
Lemma rebin_phoenixV16_run cdbs_path :
  exists trs,
    rebin_phoenixV16 Icat fits_file path_exists rebin_spec str_format cdbs_path
    = (Done tt,
       map FetcherEvent
           (snd (query Icat "ck04models"
                       "Could not find Castelli and Kurucz 2004 atmosphere model for"
                       20000 0 4))
       ++ [FitsOpen (cdbs_path ++ "/grid/phoenix_v16/phoenixm00/phoenixm00_02400.fits");
           PathExists (cdbs_path ++ "/grid/phoenix_v16_rebin/")]
       ++ (if path_exists (cdbs_path ++ "/grid/phoenix_v16_rebin/")
           then []
           else [Mkdir (cdbs_path ++ "/grid/phoenix_v16_rebin/");
                 Mkdir ((cdbs_path ++ "/grid/phoenix_v16_rebin/") ++ "phoenixm00")])
       ++ List.concat trs)
    /\ Forall2
         (fun t tr =>
            exists line,
              tr = flat_map
                     (fun g =>
                        map FetcherEvent
                            (snd (query Icat "phoenix_v16_rebin"
                                        "Could not find PHOENIXv16 (Husser+13) atmosphere model for"
                                        t 0 g)))
                     phoenixv16_grav_arr
                   ++ [rebinned_table Icat fits_file rebin_spec str_format
                                      cdbs_path t;
                       PrintLine line])
         phoenixv16_temp_arr trs.
Proof.
  unfold rebin_phoenixV16.
  rewrite get_castelli_atmosphere_default, query_eq.
  cbn [lift]. rewrite sbind_done. cbv beta.
  unfold fits_open. rewrite sbind_done. cbv beta.
  unfold os_path_exists. rewrite sbind_done. cbv beta.
  cbv zeta.
  match goal with
  | |- context [for_each ?l ?b ?s0] =>
      destruct (for_each_runs l b
                  (fun t tr =>
                     exists line,
                       tr = flat_map
                              (fun g =>
                                 map FetcherEvent
                                     (snd (query Icat "phoenix_v16_rebin"
                                                 "Could not find PHOENIXv16 (Husser+13) atmosphere model for"
                                                 t 0 g)))
                              phoenixv16_grav_arr
                            ++ [rebinned_table Icat fits_file rebin_spec str_format
                                               cdbs_path t;
                                PrintLine line])) with (s := s0)
        as (s' & trs & E & HF)
  end.
  { intros t count Ht. cbv beta.
    rewrite (for_each_collect _ _
               (fun g => rebin_spec (wave (Icat "phoenix_v16_rebin" t 0 g))
                                    (flux (Icat "phoenix_v16_rebin" t 0 g))
                                    (wave (Icat "ck04models" 20000 0 4)))
               (fun g => map FetcherEvent
                             (snd (query Icat "phoenix_v16_rebin"
                                         "Could not find PHOENIXv16 (Husser+13) atmosphere model for"
                                         t 0 g)))).
    2: { intros g s Hg.
         rewrite (get_phoenixv16_atmosphere_node 0 t g true Ht Hg), query_eq.
         cbn [lift sbind attr_wave attr_flux sret fst snd]. now rewrite !app_nil_r. }
    unfold rebinned_table, phoenixv16_grav_arr.
    replace (np.arange 2.0 (6.0 + 0.1) 0.5)
      with [2; 5 # 2; 3; 7 # 2; 4; 9 # 2; 5; 11 # 2; 6] by (vm_compute; reflexivity).
    eexists. eexists. split.
    - cbn [app map sbind lift getitem nth_error ret attr_wave sret writeto print_line
           fst snd]. reflexivity.
    - eexists. reflexivity. }
  exists trs. split; [|exact HF].
  rewrite E. destruct (path_exists _); cbn; rewrite ?app_nil_r; reflexivity.
Qed.

(** X13. The script ends normally: every fetcher call it makes returns a
    spectrum.  Its interpolator calls are one on ck04models, at the default
    request (20000, 0, 4), then one per temperature and gravity of the
    PHOENIX-v16 arrays, in order, each exactly at that node and each on the
    grid phoenix_v16_rebin, the grid the script is writing. *)
Theorem rebin_phoenixV16_reads_rebinned_grid cdbs_path :
  fst (rebin_phoenixV16 Icat fits_file path_exists rebin_spec str_format cdbs_path)
  = Done tt
  /\ calls (fetched (snd (rebin_phoenixV16 Icat fits_file path_exists rebin_spec
                                           str_format cdbs_path)))
     = IcatCall "ck04models" 20000 0 4
       :: flat_map (fun t => map (fun g => IcatCall "phoenix_v16_rebin" t 0 g)
                                 phoenixv16_grav_arr)
                   phoenixv16_temp_arr.
Proof.
  destruct (rebin_phoenixV16_run cdbs_path) as (trs & E & HF). rewrite E.
  split; [reflexivity|]. cbn [snd].
  rewrite !fetched_app, !calls_app, fetched_lift.
  rewrite calls_query.
  match goal with
  | |- context [fetched (if ?c then ?x else ?y)] =>
      replace (fetched (if c then x else y)) with (@nil Event)
        by (destruct c; reflexivity)
  end.
  match goal with
  | |- context [fetched [FitsOpen ?a; PathExists ?b]] =>
      change (fetched [FitsOpen a; PathExists b]) with (@nil Event)
  end.
  change (calls []) with (@nil Event).
  cbn [app]. f_equal.
  clear E. induction HF as [|t tr ts trs (line & ->) _ IH]; [reflexivity|].
  cbn [List.concat flat_map]. rewrite fetched_app, calls_app, IH. f_equal.
  rewrite fetched_app, calls_app.
  match goal with
  | |- context [fetched [?w; PrintLine line]] =>
      change (fetched [w; PrintLine line]) with (@nil Event)
  end.
  change (calls []) with (@nil Event). rewrite app_nil_r.
  generalize phoenixv16_grav_arr. intros l.
  induction l as [|g l IHl]; [reflexivity|].
  cbn [flat_map map]. rewrite fetched_app, calls_app, fetched_lift, IHl.
  now rewrite calls_query.
Qed.

(** X14. The script writes one table per entry of the temperature array, in
    order, and nothing else: the table of the temperature [t] goes to the
    file named after [t]; under each label g2.0 ... g6.0 stands the
    spectrum the interpolator gave for [t] and that gravity, rebinned to the
    wavelengths of the Castelli-Kurucz spectrum. *)
Theorem rebin_phoenixV16_tables cdbs_path :
  written (snd (rebin_phoenixV16 Icat fits_file path_exists rebin_spec
                                 str_format cdbs_path))
  = map (rebinned_table Icat fits_file rebin_spec str_format cdbs_path)
        phoenixv16_temp_arr.
Proof.
  destruct (rebin_phoenixV16_run cdbs_path) as (trs & E & HF). rewrite E. cbn [snd].
  rewrite !written_app, written_lift.
  match goal with
  | |- context [written (if ?c then ?x else ?y)] =>
      replace (written (if c then x else y)) with (@nil ScriptEvent)
        by (destruct c; reflexivity)
  end.
  match goal with
  | |- context [written [FitsOpen ?a; PathExists ?b]] =>
      change (written [FitsOpen a; PathExists b]) with (@nil ScriptEvent)
  end.
  cbn [app].
  clear E. induction HF as [|t tr ts trs (line & ->) _ IH]; [reflexivity|].
  cbn [List.concat map]. rewrite written_app, IH, written_app.
  replace (written (flat_map _ phoenixv16_grav_arr)) with (@nil ScriptEvent).
  - reflexivity.
  - generalize phoenixv16_grav_arr. intros l.
    induction l as [|g l IHl]; [reflexivity|].
    cbn [flat_map]. now rewrite written_app, written_lift, <- IHl.
Qed.

(** ** [cdbs_PHOENIXv16] *)

Ltac leb_facts :=
  repeat match goal with
         | H : Nat.leb ?a ?b = true |- _ =>
             lazymatch goal with
             | _ : (a <= b)%nat |- _ => fail
             | _ => pose proof (proj1 (PeanoNat.Nat.leb_le a b) H)
             end
         | H : Nat.leb ?a ?b = false |- _ =>
             lazymatch goal with
             | _ : (b < a)%nat |- _ => fail
             | _ => pose proof (proj1 (PeanoNat.Nat.leb_gt a b) H)
             end
         end.

(** The run of the script on a directory whose files have the columns it
    reads: one block of events per file, which holds one table. *)
Lemma cdbs_PHOENIXv16_run path_to_cdbs_dir :
  cdbs_complete fits_file (glob "*.fits") = true ->
  exists trs,
    cdbs_PHOENIXv16 cwd glob fits_file str_format path_to_cdbs_dir
    = (Done tt,
       Getcwd :: Chdir path_to_cdbs_dir :: Glob "*.fits" :: List.concat trs)
    /\ Forall2
         (fun ka tr =>
            written tr = [cdbs_table fits_file (glob "*.fits") (fst ka) (snd ka)])
         (combine (seq 1 (List.length (glob "*.fits"))) (glob "*.fits")) trs.
Proof.
  intros Hc. unfold cdbs_PHOENIXv16.
  cbn [sbind os_getcwd os_chdir glob_glob].
  match goal with
  | |- context [for_each ?l ?b ?s0] =>
      destruct (for_each_indexed l b
                  (fun k st =>
                     fst st = k
                     /\ ((34 <= k)%nat ->
                         snd st 1%nat
                         = Some (flux_column
                                   "g0.0"
                                   (table_data
                                      (fits_file (nth 33 (glob "*.fits") EmptyString)))
                                   1)))
                  (fun c i tr => written tr = [cdbs_table fits_file (glob "*.fits") c i]))
        with (s := s0) as (s' & trs & E & HF)
  end.
  { intros k i [counter vars] Hnth [Hk Hv]. cbn [fst snd] in Hk, Hv. subst counter.
    pose proof (nth_error_combine_seq _ 1 k i Hnth) as Hin.
    unfold cdbs_complete in Hc. rewrite forallb_forall in Hc.
    specialize (Hc _ Hin). cbn beta iota in Hc. apply PeanoNat.Nat.ltb_lt in Hc.
    clear Hin. cbn [Nat.add] in Hc. rewrite !PeanoNat.Nat.add_1_r.
    unfold cdbs_missing in Hc. unfold fits_open. cbn [sbind].
    remember (S k) as c eqn:Ec.
    destruct (Nat.leb c 34) eqn:E34;
      [|destruct (Nat.leb c 37) eqn:E37;
        [|destruct (Nat.leb c 54) eqn:E54; [|destruct (Nat.leb c 59) eqn:E59]]];
      destruct (Nat.leb c 35) eqn:E35;
      leb_facts; try (exfalso; lia);
      repeat match goal with
             | |- context [field ?s ?n] => rewrite (field_ok s n) by lia
             end;
      cbn [sbind sret loads load store Nat.eqb fst snd app];
      try match goal with
          | |- context [load ?v 1%nat] => rewrite (load_eq v 1%nat _ (Hv ltac:(lia)))
          end;
      cbn [sbind sret loads load store Nat.eqb fst snd app writeto fits_close
           print_line];
      (eexists; eexists; split; [reflexivity|]);
      (split; [split; [reflexivity|]|]).
    all: try (intros _; cbn [snd store Nat.eqb]; apply Hv; lia).
    all: try (unfold cdbs_table, own_flux_columns, cdbs_missing;
              rewrite ?E34, ?E37, ?E54, ?E59;
              destruct (PeanoNat.Nat.eqb_spec c 35); try (exfalso; lia);
              reflexivity).
    intros H34. assert (k = 33%nat) by lia. subst k. cbn [snd store Nat.eqb].
    now rewrite (nth_error_nth _ _ EmptyString Hnth). }
  { split; [reflexivity|]. intros H. exfalso. lia. }
  exists trs. split; [|exact HF].
  rewrite E. cbn [sbind sret app]. now rewrite app_nil_r.
Qed.

(** X15. On a directory whose files have the columns read of them, the script
    ends normally and writes one table per file, in the order of the
    listing, each over the file it was read from.  The table of a file holds
    its own wavelengths and its own flux columns, scaled by 10^-8, under the
    last labels of g0.0 ... g6.0; the table of the 35th file holds one
    column more, g0.0, which is the scaled first flux column of the 34th
    file. *)
Theorem cdbs_PHOENIXv16_tables path_to_cdbs_dir :
  cdbs_complete fits_file (glob "*.fits") = true ->
  fst (cdbs_PHOENIXv16 cwd glob fits_file str_format path_to_cdbs_dir) = Done tt
  /\ written (snd (cdbs_PHOENIXv16 cwd glob fits_file str_format path_to_cdbs_dir))
     = map (fun ka => cdbs_table fits_file (glob "*.fits") (fst ka) (snd ka))
           (combine (seq 1 (List.length (glob "*.fits"))) (glob "*.fits")).
Proof.
  intros Hc. destruct (cdbs_PHOENIXv16_run path_to_cdbs_dir Hc) as (trs & E & HF).
  rewrite E. split; [reflexivity|]. cbn [snd].
  change (written (Getcwd :: Chdir path_to_cdbs_dir :: Glob "*.fits" :: List.concat trs))
    with (written (List.concat trs)).
  clear E. induction HF as [|ka tr kas trs Hw _ IH]; [reflexivity|].
  cbn [List.concat map]. now rewrite written_app, Hw, IH.
Qed.

(** ** [download_CMFGEN_atmospheres] *)



End ScriptFacts.

(** * The further theorems at concrete requests *)

Lemma snap_monotone_witness :
  In castelli_temp_arr
     [castelli_temp_arr; castelli_grav_arr; phoenixv16_temp_arr;
      phoenixv16_grav_arr; atlas_phoenix_temp_arr; atlas_phoenix_grav_arr]
  /\ 4000 <= 21100 /\ 21100 <= bound
  /\ snap castelli_temp_arr 4000 <= snap castelli_temp_arr 21100.
Proof.
  assert (Harr : In castelli_temp_arr
                    [castelli_temp_arr; castelli_grav_arr; phoenixv16_temp_arr;
                     phoenixv16_grav_arr; atlas_phoenix_temp_arr;
                     atlas_phoenix_grav_arr]) by (left; reflexivity).
  assert (Hle : 4000 <= 21100) by (vm_compute; discriminate).
  assert (Hb : 21100 <= bound) by (vm_compute; discriminate).
  split; [exact Harr|]. split; [exact Hle|]. split; [exact Hb|].
  exact (snap_monotone castelli_temp_arr 4000 21100 Harr Hle Hb).
Defined.

Lemma fetch_queries_at_most_once_witness :
  snapping Castelli = true /\ in_range 21100 /\ in_range 4.2
  /\ ((fst (fetch lit_Icat Castelli 0 21100 4.2) = Ok None
       /\ calls (snd (fetch lit_Icat Castelli 0 21100 4.2)) = [])
      \/ (exists t' g',
            fst (fetch lit_Icat Castelli 0 21100 4.2)
            = Ok (Some (lit_Icat (family_grid Castelli) t' 0 g'))
            /\ calls (snd (fetch lit_Icat Castelli 0 21100 4.2))
               = [IcatCall (family_grid Castelli) t' 0 g'])).
Proof.
  assert (Hs : snapping Castelli = true) by reflexivity.
  assert (Ht : in_range 21100) by (split; vm_compute; discriminate).
  assert (Hg : in_range 4.2) by (split; vm_compute; discriminate).
  split; [exact Hs|]. split; [exact Ht|]. split; [exact Hg|].
  exact (fetch_queries_at_most_once lit_Icat Castelli 0 21100 4.2 Hs Ht Hg).
Defined.

Lemma get_phoenixv16_atmosphere_serves_iff_witness :
  ((2300 <= 4040 /\ 4040 <= 12000 /\ 2.0 <= 6.4 /\ 6.4 <= 6.5)
   /\ exists sp, fst (get_phoenixv16_atmosphere lit_Icat 0 4040 6.4 true) = Ok (Some sp))
  /\ ((exists sp, fst (get_phoenixv16_atmosphere lit_Icat 0 12000 2 false) = Ok (Some sp))
      /\ 2300 <= 12000 /\ 12000 <= 12000 /\ 2.0 <= 2 /\ 2 <= 6.5).
Proof.
  split.
  - assert (H : 2300 <= 4040 /\ 4040 <= 12000 /\ 2.0 <= 6.4 /\ 6.4 <= 6.5)
      by (split; [|split; [|split]]; vm_compute; discriminate).
    split; [exact H|].
    exact (proj2 (get_phoenixv16_atmosphere_serves_iff lit_Icat 0 4040 6.4 true) H).
  - assert (H : exists sp,
               fst (get_phoenixv16_atmosphere lit_Icat 0 12000 2 false) = Ok (Some sp))
      by (eexists; vm_compute; reflexivity).
    split; [exact H|].
    exact (proj1 (get_phoenixv16_atmosphere_serves_iff lit_Icat 0 12000 2 false) H).
Defined.

Lemma get_phoenixv16_atmosphere_bad_match_iff_witness :
  ((2300 <= 4000 /\ 4000 <= 12000 /\ 6.5 < 6.6)
   /\ get_phoenixv16_atmosphere lit_Icat 0 4000 6.6 true
      = (Ok None, [Print "BAD TEMP/GRAV MATCH"]))
  /\ (get_phoenixv16_atmosphere lit_Icat 0 2300 7 false
      = (Ok None, [Print "BAD TEMP/GRAV MATCH"])
      /\ 2300 <= 2300 /\ 2300 <= 12000 /\ 6.5 < 7).
Proof.
  split.
  - assert (H : 2300 <= 4000 /\ 4000 <= 12000 /\ 6.5 < 6.6).
    { split; [|split]; vm_compute; [discriminate | discriminate | reflexivity]. }
    split; [exact H|].
    exact (proj2 (get_phoenixv16_atmosphere_bad_match_iff lit_Icat 0 4000 6.6 true) H).
  - assert (H : get_phoenixv16_atmosphere lit_Icat 0 2300 7 false
                = (Ok None, [Print "BAD TEMP/GRAV MATCH"])) by (vm_compute; reflexivity).
    split; [exact H|].
    exact (proj1 (get_phoenixv16_atmosphere_bad_match_iff lit_Icat 0 2300 7 false) H).
Defined.

Lemma get_atlas_phoenix_atmosphere_serves_iff_witness :
  ((5000 <= 5500 /\ 5500 <= 5500 /\ - 0.5 <= 5.5 /\ 5.5 <= 5.5)
   /\ exists sp, fst (get_atlas_phoenix_atmosphere lit_Icat 0 5500 5.5) = Ok (Some sp))
  /\ (In (IcatCall "merged" 5250 0 5)
         (snd (get_atlas_phoenix_atmosphere lit_Icat 0 5500 5.5))
      /\ 5250 = 5250).
Proof.
  split.
  - assert (H : 5000 <= 5500 /\ 5500 <= 5500 /\ - 0.5 <= 5.5 /\ 5.5 <= 5.5)
      by (split; [|split; [|split]]; vm_compute; discriminate).
    split; [exact H|].
    exact (proj2 (proj1 (get_atlas_phoenix_atmosphere_serves_iff lit_Icat 0 5500 5.5)) H).
  - assert (H : In (IcatCall "merged" 5250 0 5)
                   (snd (get_atlas_phoenix_atmosphere lit_Icat 0 5500 5.5))) by find_in.
    split; [exact H|].
    exact (proj2 (get_atlas_phoenix_atmosphere_serves_iff lit_Icat 0 5500 5.5) _ _ _ _ H).
Defined.

Lemma get_castelli_atmosphere_serves_iff_witness :
  (in_range (-7) /\ 3000 <= 3000
   /\ exists sp, fst (get_castelli_atmosphere lit_Icat 0 3000 (-7)) = Ok (Some sp))
  /\ (in_range 4
      /\ (exists sp, fst (get_castelli_atmosphere lit_Icat 0 90000 4) = Ok (Some sp))
      /\ 3000 <= 90000).
Proof.
  split.
  - assert (Hg : in_range (-7)) by (split; vm_compute; discriminate).
    assert (H : 3000 <= 3000) by (vm_compute; discriminate).
    split; [exact Hg|]. split; [exact H|].
    exact (proj2 (get_castelli_atmosphere_serves_iff lit_Icat 0 3000 (-7) Hg) H).
  - assert (Hg : in_range 4) by (split; vm_compute; discriminate).
    assert (H : exists sp, fst (get_castelli_atmosphere lit_Icat 0 90000 4) = Ok (Some sp))
      by (eexists; vm_compute; reflexivity).
    split; [exact Hg|]. split; [exact H|].
    exact (proj1 (get_castelli_atmosphere_serves_iff lit_Icat 0 90000 4 Hg) H).
Defined.

Lemma snapping_fetchers_query_inside_grid_witness :
  (In (IcatCall "ck04models" 50000 0 2.5)
      (snd (get_castelli_atmosphere lit_Icat 0 90000 (-7)))
   /\ (3000 <= 50000 /\ 50000 <= 50000) /\ (2.5 <= 2.5 /\ 2.5 <= 5))
  /\ (In (IcatCall "phoenix_v16_rebin" 12000 0 6)
         (snd (get_phoenixv16_atmosphere lit_Icat 0 12000 6.5 true))
      /\ (2300 <= 12000 /\ 12000 <= 12000) /\ (2 <= 6 /\ 6 <= 6))
  /\ (In (IcatCall "merged" 5250 0 0)
         (snd (get_atlas_phoenix_atmosphere lit_Icat 0 5000 (-0.5)))
      /\ 0 <= 0 /\ 0 <= 5).
Proof.
  split; [|split].
  - assert (H : In (IcatCall "ck04models" 50000 0 2.5)
                   (snd (get_castelli_atmosphere lit_Icat 0 90000 (-7)))) by find_in.
    split; [exact H|].
    exact (proj1 (snapping_fetchers_query_inside_grid
                    lit_Icat 0 90000 (-7) true _ _ _ _) H).
  - assert (H : In (IcatCall "phoenix_v16_rebin" 12000 0 6)
                   (snd (get_phoenixv16_atmosphere lit_Icat 0 12000 6.5 true)))
      by find_in.
    split; [exact H|].
    exact (proj1 (proj2 (snapping_fetchers_query_inside_grid
                           lit_Icat 0 12000 6.5 true _ _ _ _)) H).
  - assert (H : In (IcatCall "merged" 5250 0 0)
                   (snd (get_atlas_phoenix_atmosphere lit_Icat 0 5000 (-0.5))))
      by find_in.
    split; [exact H|].
    exact (proj2 (proj2 (snapping_fetchers_query_inside_grid
                           lit_Icat 0 5000 (-0.5) true _ _ _ _)) H).
Defined.

Lemma get_castelli_atmosphere_saturates_witness :
  (In (IcatCall "ck04models" 50000 0 5) (snd (get_castelli_atmosphere lit_Icat 0 60000 6))
   /\ (50000 <= 60000 /\ 60000 <= bound) /\ (5 <= 6 /\ 6 <= bound)
   /\ 50000 == 50000 /\ 5 == 5)
  /\ (In (IcatCall "ck04models" 21000 0 (5 # 2))
         (snd (get_castelli_atmosphere lit_Icat 0 21000 2.75))
      /\ 2.75 <= 2.75 /\ 5 # 2 == 2.5).
Proof.
  split.
  - assert (H : In (IcatCall "ck04models" 50000 0 5)
                   (snd (get_castelli_atmosphere lit_Icat 0 60000 6))) by find_in.
    assert (Ht : 50000 <= 60000) by (vm_compute; discriminate).
    assert (Ht' : 60000 <= bound) by (vm_compute; discriminate).
    assert (Hg : 5 <= 6) by (vm_compute; discriminate).
    assert (Hg' : 6 <= bound) by (vm_compute; discriminate).
    destruct (get_castelli_atmosphere_saturates lit_Icat 0 60000 6 _ _ _ _ H)
      as (St & Sg & _).
    split; [exact H|]. split; [exact (conj Ht Ht')|]. split; [exact (conj Hg Hg')|].
    split; [exact (St Ht Ht') | exact (Sg Hg Hg')].
  - assert (H : In (IcatCall "ck04models" 21000 0 (5 # 2))
                   (snd (get_castelli_atmosphere lit_Icat 0 21000 2.75))) by find_in.
    assert (Hg : 2.75 <= 2.75) by (vm_compute; discriminate).
    destruct (get_castelli_atmosphere_saturates lit_Icat 0 21000 2.75 _ _ _ _ H)
      as (_ & _ & Sg).
    split; [exact H|]. split; [exact Hg | exact (Sg Hg)].
Defined.


Lemma get_merged_atmosphere_serves_iff_witness :
  (in_range 4 /\ (2300 <= 4999 /\ 4999 < 5000 /\ 2.0 <= 4 /\ 4 <= 6.5)
   /\ exists sp, fst (get_merged_atmosphere lit_Icat 0 4999 4) = Ok (Some sp))
  /\ (in_range 0 /\ (5000 < 5200 /\ 5200 < 5500 /\ - 0.5 <= 0 /\ 0 <= 5.5)
      /\ exists sp, fst (get_merged_atmosphere lit_Icat 0 5200 0) = Ok (Some sp))
  /\ (in_range 9 /\ 5500 < 30000
      /\ exists sp, fst (get_merged_atmosphere lit_Icat 0 30000 9) = Ok (Some sp))
  /\ (in_range 1
      /\ (exists sp, fst (get_merged_atmosphere lit_Icat 0 5501 1) = Ok (Some sp))
      /\ ((2300 <= 5501 /\ 5501 < 5000 /\ 2.0 <= 1 /\ 1 <= 6.5)
          \/ (5000 < 5501 /\ 5501 < 5500 /\ - 0.5 <= 1 /\ 1 <= 5.5)
          \/ 5500 < 5501)).
Proof.
  split; [|split; [|split]].
  - assert (Hg : in_range 4) by (split; vm_compute; discriminate).
    assert (H : 2300 <= 4999 /\ 4999 < 5000 /\ 2.0 <= 4 /\ 4 <= 6.5).
    { split; [|split; [|split]]; vm_compute;
        [discriminate | reflexivity | discriminate | discriminate]. }
    split; [exact Hg|]. split; [exact H|].
    exact (proj2 (get_merged_atmosphere_serves_iff lit_Icat 0 4999 4 Hg)
             (or_introl H)).
  - assert (Hg : in_range 0) by (split; vm_compute; discriminate).
    assert (H : 5000 < 5200 /\ 5200 < 5500 /\ - 0.5 <= 0 /\ 0 <= 5.5).
    { split; [|split; [|split]]; vm_compute;
        [reflexivity | reflexivity | discriminate | discriminate]. }
    split; [exact Hg|]. split; [exact H|].
    exact (proj2 (get_merged_atmosphere_serves_iff lit_Icat 0 5200 0 Hg)
             (or_intror (or_introl H))).
  - assert (Hg : in_range 9) by (split; vm_compute; discriminate).
    assert (H : 5500 < 30000) by (vm_compute; reflexivity).
    split; [exact Hg|]. split; [exact H|].
    exact (proj2 (get_merged_atmosphere_serves_iff lit_Icat 0 30000 9 Hg)
             (or_intror (or_intror H))).
  - assert (Hg : in_range 1) by (split; vm_compute; discriminate).
    assert (H : exists sp, fst (get_merged_atmosphere lit_Icat 0 5501 1) = Ok (Some sp))
      by (eexists; vm_compute; reflexivity).
    split; [exact Hg|]. split; [exact H|].
    exact (proj1 (get_merged_atmosphere_serves_iff lit_Icat 0 5501 1 Hg) H).
Defined.

Lemma get_merged_atmosphere_never_warns_witness :
  In (Print "ATLAS atmosphere used") (snd (get_merged_atmosphere lit_Icat 0 25000 4))
  /\ Print "ATLAS atmosphere used" <> Print "Warning: ATLAS still used at high temps".
Proof.
  assert (H : In (Print "ATLAS atmosphere used")
                 (snd (get_merged_atmosphere lit_Icat 0 25000 4))) by find_in.
  split; [exact H|].
  exact (get_merged_atmosphere_never_warns lit_Icat 0 25000 4 _ H).
Defined.

Lemma get_merged_atmosphere_query_band_witness :
  (In (IcatCall "phoenix_v16_rebin" 5000 0 4)
      (snd (get_merged_atmosphere lit_Icat 0 4999 4))
   /\ 4999 < 5000 /\ 5000 <= 5000)
  /\ (In (IcatCall "merged" 5250 0 4) (snd (get_merged_atmosphere lit_Icat 0 5499 4))
      /\ (5000 < 5499 /\ 5499 < 5500) /\ 5250 = 5250)
  /\ (In (IcatCall "ck04models" 5500 0 4) (snd (get_merged_atmosphere lit_Icat 0 5501 4))
      /\ 5500 < 5501 /\ 5501 <= bound /\ 5500 <= 5500).
Proof.
  split; [|split].
  - assert (H : In (IcatCall "phoenix_v16_rebin" 5000 0 4)
                   (snd (get_merged_atmosphere lit_Icat 0 4999 4))) by find_in.
    assert (Ht : 4999 < 5000) by (vm_compute; reflexivity).
    split; [exact H|]. split; [exact Ht|].
    exact (proj1 (get_merged_atmosphere_query_band lit_Icat 0 4999 4 _ _ _ _ H) Ht).
  - assert (H : In (IcatCall "merged" 5250 0 4)
                   (snd (get_merged_atmosphere lit_Icat 0 5499 4))) by find_in.
    assert (Ht : 5000 < 5499 /\ 5499 < 5500) by (split; vm_compute; reflexivity).
    split; [exact H|]. split; [exact Ht|].
    exact (proj1 (proj2 (get_merged_atmosphere_query_band lit_Icat 0 5499 4 _ _ _ _ H))
             Ht).
  - assert (H : In (IcatCall "ck04models" 5500 0 4)
                   (snd (get_merged_atmosphere lit_Icat 0 5501 4))) by find_in.
    assert (Ht : 5500 < 5501) by (vm_compute; reflexivity).
    assert (Hb : 5501 <= bound) by (vm_compute; discriminate).
    split; [exact H|]. split; [exact Ht|]. split; [exact Hb|].
    exact (proj2 (proj2 (get_merged_atmosphere_query_band lit_Icat 0 5501 4 _ _ _ _ H))
             Ht Hb).
Defined.

Lemma cdbs_PHOENIXv16_tables_witness :
  cdbs_complete demo_file (demo_glob "*.fits") = true
  /\ fst (cdbs_PHOENIXv16 "/home" demo_glob demo_file (fun fmt _ => fmt) "phoenixm00")
     = Done tt
  /\ written (snd (cdbs_PHOENIXv16 "/home" demo_glob demo_file (fun fmt _ => fmt)
                                   "phoenixm00"))
     = map (fun ka => cdbs_table demo_file (demo_glob "*.fits") (fst ka) (snd ka))
           (combine (seq 1 (List.length (demo_glob "*.fits"))) (demo_glob "*.fits")).
Proof.
  assert (H : cdbs_complete demo_file (demo_glob "*.fits") = true)
    by (vm_compute; reflexivity).
  exact (conj H (cdbs_PHOENIXv16_tables "/home" demo_glob demo_file (fun fmt _ => fmt)
                                        "phoenixm00" H)).
Defined.

